(** * Helpers/annotation_parsers.py: VOC annotation extraction, aggregation
      and normalisation

    A shallow embedding of the four functions of the module
    ([get_tree_item], [parse_voc_file], [adjust_frame], [parse_voc_folder])
    and of the library calls they make, followed by the properties the
    specification states about them.

    Conventions of the embedding:
    - Python exceptions are values of [Exn]; a computation that may raise
      returns a [Result].
    - Code that touches the file system or the console runs in the monad
      [IO], a state-and-exception monad over [World].  A world holds the
      file tree, the working directory and the chronological list of
      system-level operations performed so far.
    - File contents are kept in the form the library readers give them:
      an XML file as the element tree that [ElementTree.parse] returns, a
      JSON configuration as the tag mapping that [json.load] returns, a CSV
      artifact as the table that [DataFrame.to_csv] was given.
    - pandas columns of dtype float64 hold [spec_float] values of the
      Standard Library's IEEE-754 specification, at precision 53 and
      exponent bound 1024; columns of dtype int64 hold [Z] values, with
      wrap-around written out. *)

From Stdlib Require Import ZArith Ascii String List Bool Lia.
From Stdlib Require Import Floats.SpecFloat.
From stdpp Require Import base option list strings gmap.

Open Scope string_scope.
Open Scope Z_scope.

(** ** Exceptions and results *)

Module Py.

(** The exception classes that the module and its library calls raise.
    [ValueError] carries the message; pandas' [IntCastingNaNError] is a
    subclass of [ValueError] and is represented by it. *)
Inductive Exn : Type :=
  | AssertionError
  | ValueError (msg : string)
  | FileNotFoundError (path : string)
  | IsADirectoryError (path : string)
  | NotADirectoryError (path : string)
  | ParseError (path : string)
  | JSONDecodeError (path : string).

Inductive Result (A : Type) : Type :=
  | Ok (a : A)
  | Raise (e : Exn).

Arguments Ok {A} a.
Arguments Raise {A} e.

Definition bind {A B} (r : Result A) (k : A -> Result B) : Result B :=
  match r with
  | Ok a => k a
  | Raise e => Raise e
  end.

Definition is_ok {A} (r : Result A) : bool :=
  match r with Ok _ => true | Raise _ => false end.

(** [for x in xs: ys.append(f(x))], aborted by the first exception. *)
Fixpoint for_each {A B} (f : A -> Result B) (xs : list A) : Result (list B) :=
  match xs with
  | [] => Ok []
  | x :: xs' =>
      bind (f x) (fun y => bind (for_each f xs') (fun ys => Ok (y :: ys)))
  end.

End Py.

Import Py.

Declare Scope result_scope.
Delimit Scope result_scope with result.
Notation "'let!' x ':=' r 'in' k" := (Py.bind r (fun x => k))
  (at level 10, x name, r at level 100, k at level 200) : result_scope.

(** ** xml.etree.ElementTree *)

Module ElementTree.

(** An element: its tag, its [.text] ([None] for an element without
    character data) and its child elements in document order. *)
#[local] Unset Elimination Schemes.
Inductive Element : Type :=
  | Elem (tag : string) (text : option string) (children : list Element).
#[local] Set Elimination Schemes.

Definition tag (e : Element) : string :=
  match e with Elem t _ _ => t end.

Definition text (e : Element) : option string :=
  match e with Elem _ t _ => t end.

Definition children (e : Element) : list Element :=
  match e with Elem _ _ cs => cs end.

Definition has_tag (t : string) (e : Element) : bool :=
  String.eqb (tag e) t.

(** [parent.findall(tag)] for a plain tag name: the direct children with
    that tag, in document order.  On an [ElementTree] object the search
    starts at the root element, so the same function serves both. *)
Definition findall (parent : Element) (t : string) : list Element :=
  List.filter (has_tag t) (children parent).

(** [parent.find(tag)]: the first match, or [None]. *)
Definition find (parent : Element) (t : string) : option Element :=
  List.find (has_tag t) (children parent).

End ElementTree.

Import ElementTree.

(** ** The tag mapping of the JSON configuration

    The shape is the one [parse_voc_file] indexes: sections [Tree], [Size]
    and [Object], the last with a nested [Object Box] section.  The values
    are plain tag names, as in the configuration shipped with the
    repository. *)

Module Tags.

Record TreeSection := { Path : string }.
Record SizeSection := { Size_Tag : string; Width : string; Height : string }.
Record ObjectBoxSection :=
  { Object_Box_Tag : string; X0 : string; Y0 : string; X1 : string; Y1 : string }.
Record ObjectSection :=
  { Object_Tag : string; Object_Name : string; Object_Box : ObjectBoxSection }.
Record t := { Tree : TreeSection; Size : SizeSection; Object : ObjectSection }.

End Tags.

(** ** Rows

    One row per object instance, under the column names of
    [frame_columns].  The six geometry columns have cell type [T]: the
    [.text] of an element before coercion, an int64 value after it. *)

Record Row (T : Type) := mkRow
  { Image_Path : option string;
    Object_Name : option string;
    Image_Width : T;
    Image_Height : T;
    X_min : T;
    Y_min : T;
    X_max : T;
    Y_max : T }.

Arguments mkRow {T}.
Arguments Image_Path {T}.
Arguments Object_Name {T}.
Arguments Image_Width {T}.
Arguments Image_Height {T}.
Arguments X_min {T}.
Arguments Y_min {T}.
Arguments X_max {T}.
Arguments Y_max {T}.

(** A cell of a raw row: the [.text] attribute of an element. *)
Abbreviation Text := (option string).
Abbreviation RawRow := (Row Text).

(** ** get_tree_item and parse_voc_file: the walk over one document *)

Definition dquote : string := String "034"%char EmptyString.

(** [f'Could not find "{tag}" in {file_path}'] *)
Definition could_not_find (tag file_path : string) : string :=
  "Could not find " ++ dquote ++ tag ++ dquote ++ " in " ++ file_path.

(** [get_tree_item(parent, tag, file_path, find_all)].  With [find_all]
    the target is the list that [findall] returns, which is never [None],
    so only the single-node lookup can raise. *)
Definition get_tree_item (parent : Element) (tag file_path : string)
    (find_all : bool) : Result (if find_all then list Element else Element) :=
  match find_all
        return Result (if find_all then list Element else Element) with
  | true => Ok (findall parent tag)
  | false =>
      match find parent tag with
      | Some target => Ok target
      | None => Raise (ValueError (could_not_find tag file_path))
      end
  end.

(** The body of the [for item in ...] loop of [parse_voc_file]: the row
    appended for one object node. *)
Definition object_row (tags : Tags.t) (file_path : string)
    (image_path image_width image_height : Text) (item : Element)
    : Result RawRow :=
  (let box := Tags.Object_Box (Tags.Object tags) in
   let! name_item :=
     get_tree_item item (Tags.Object_Name (Tags.Object tags)) file_path false in
   let! box_item := get_tree_item item (Tags.Object_Box_Tag box) file_path false in
   let! x0 := get_tree_item box_item (Tags.X0 box) file_path false in
   let! y0 := get_tree_item box_item (Tags.Y0 box) file_path false in
   let! x1 := get_tree_item box_item (Tags.X1 box) file_path false in
   let! y1 := get_tree_item box_item (Tags.Y1 box) file_path false in
   Ok (mkRow image_path (text name_item) image_width image_height
             (text x0) (text y0) (text x1) (text y1)))%result.

(** Lines 44 to 56 of [parse_voc_file]: from the parsed tree to the list
    of rows. *)
Definition tree_rows (tags : Tags.t) (file_path : string) (tree : Element)
    : Result (list RawRow) :=
  (let! path_item := get_tree_item tree (Tags.Path (Tags.Tree tags)) file_path false in
   let image_path := text path_item in
   let! size_item := get_tree_item tree (Tags.Size_Tag (Tags.Size tags)) file_path false in
   let! width_item := get_tree_item size_item (Tags.Width (Tags.Size tags)) file_path false in
   let image_width := text width_item in
   let! height_item := get_tree_item size_item (Tags.Height (Tags.Size tags)) file_path false in
   let image_height := text height_item in
   let! items := get_tree_item tree (Tags.Object_Tag (Tags.Object tags)) file_path true in
   for_each (object_row tags file_path image_path image_width image_height) items)%result.

(** ** int64 and float64 *)

Module Int64.

Definition min_value : Z := - 2 ^ 63.
Definition max_value : Z := 2 ^ 63 - 1.

Definition in_range (z : Z) : bool := (min_value <=? z) && (z <=? max_value).

(** Two's-complement wrap-around of an exact result. *)
Definition wrap (z : Z) : Z := (z + 2 ^ 63) mod 2 ^ 64 - 2 ^ 63.

Definition sub (a b : Z) : Z := wrap (a - b).

End Int64.

Module Float64.

Definition prec : Z := 53.
Definition emax : Z := 1024.

Definition is_finite (f : spec_float) : bool :=
  match f with
  | S754_zero _ | S754_finite _ _ _ => true
  | S754_infinity _ | S754_nan => false
  end.

(** Conversion of an integer, rounding to nearest even. *)
Definition of_Z (z : Z) : spec_float := binary_normalize prec emax z 0 false.

Definition div (x y : spec_float) : spec_float := SFdiv prec emax x y.

(** The correctly rounded value of [digits * 10 ^ e10], [digits] being
    non-negative, with the sign [neg]. *)
Definition of_decimal (neg : bool) (digits e10 : Z) : spec_float :=
  match digits with
  | Zpos d =>
      let x :=
        match e10 with
        | Zneg k =>
            SFdiv prec emax (S754_finite false d 0)
                  (S754_finite false (Pos.pow 10 k) 0)
        | _ => binary_normalize prec emax (digits * 10 ^ e10) 0 false
        end in
      if neg then SFopp x else x
  | _ => S754_zero neg
  end.

(** The integer part of a finite value, rounding toward zero. *)
Definition trunc (f : spec_float) : Z :=
  match f with
  | S754_finite s m e =>
      let a :=
        match e with
        | Zneg k => Z.shiftr (Zpos m) (Zpos k)
        | _ => Z.shiftl (Zpos m) e
        end in
      if s then - a else a
  | _ => 0
  end.

(** The C cast from double to int64 that numpy performs on a finite
    value: truncation, and the "integer indefinite" value [-2^63] of
    x86-64 when the truncated value does not fit. *)
Definition to_int64 (f : spec_float) : Z :=
  let z := trunc f in
  if Int64.in_range z then z else Int64.min_value.

End Float64.

(** ** float(str)

    The grammar CPython accepts for [float] on a string: underscores
    between digits, surrounding white space, an optional sign, then either
    a decimal number with an optional exponent or one of [inf],
    [infinity], [nan] in any letter case.  Characters are code points
    below 256. *)

Module PyFloat.

Definition code (c : ascii) : nat := nat_of_ascii c.

Definition is_space (c : ascii) : bool :=
  let n := code c in
  ((9 <=? n) && (n <=? 13) || (28 <=? n) && (n <=? 32)
   || (n =? 133) || (n =? 160))%nat.

Definition is_digit (c : ascii) : bool :=
  let n := code c in ((48 <=? n) && (n <=? 57))%nat.

Definition is_underscore (c : ascii) : bool := (code c =? 95)%nat.

Definition digit_value (c : ascii) : Z := Z.of_nat (code c) - 48.

(** The value of a digit string, most significant digit first. *)
Definition digits_value (ds : list ascii) : Z :=
  fold_left (fun acc c => 10 * acc + digit_value c) ds 0.

Definition to_lower (c : ascii) : ascii :=
  let n := code c in
  if ((65 <=? n) && (n <=? 90))%nat then ascii_of_nat (n + 32) else c.

Fixpoint span (p : ascii -> bool) (l : list ascii) : list ascii * list ascii :=
  match l with
  | c :: l' =>
      if p c then let '(a, b) := span p l' in (c :: a, b) else ([], l)
  | [] => ([], [])
  end.

Fixpoint lstrip (l : list ascii) : list ascii :=
  match l with
  | c :: l' => if is_space c then lstrip l' else l
  | [] => []
  end.

Definition strip (l : list ascii) : list ascii := rev (lstrip (rev (lstrip l))).

(** Underscores are dropped; each must stand between two digits. *)
Fixpoint drop_underscores (prev : ascii) (l : list ascii) : option (list ascii) :=
  match l with
  | [] => if is_underscore prev then None else Some []
  | c :: l' =>
      if is_underscore c then
        if is_digit prev then drop_underscores c l' else None
      else if is_underscore prev && negb (is_digit c) then None
      else option_map (cons c) (drop_underscores c l')
  end.

Definition take_sign (l : list ascii) : bool * list ascii :=
  match l with
  | c :: l' =>
      if (code c =? 45)%nat then (true, l')
      else if (code c =? 43)%nat then (false, l')
      else (false, l)
  | [] => (false, [])
  end.

(** The part after [e] or [E]: an optional sign and at least one digit,
    up to the end of the input. *)
Definition parse_exponent (l : list ascii) : option Z :=
  let '(neg, l1) := take_sign l in
  match span is_digit l1 with
  | ((_ :: _) as ds, []) => Some (if neg then - digits_value ds else digits_value ds)
  | _ => None
  end.

Definition parse_number (neg : bool) (l : list ascii) : option spec_float :=
  let '(ip, l1) := span is_digit l in
  let '(fp, l2) :=
    match l1 with
    | c :: l1' => if (code c =? 46)%nat then span is_digit l1' else ([], l1)
    | [] => ([], [])
    end in
  match (ip ++ fp)%list with
  | [] => None
  | ds =>
      let scale := - Z.of_nat (length fp) in
      match l2 with
      | [] => Some (Float64.of_decimal neg (digits_value ds) scale)
      | c :: l2' =>
          if (code (to_lower c) =? 101)%nat then
            match parse_exponent l2' with
            | Some e => Some (Float64.of_decimal neg (digits_value ds) (e + scale))
            | None => None
            end
          else None
      end
  end.

Definition parse_inf_or_nan (neg : bool) (l : list ascii) : option spec_float :=
  let w := string_of_list_ascii (map to_lower l) in
  if String.eqb w "inf" || String.eqb w "infinity" then Some (S754_infinity neg)
  else if String.eqb w "nan" then Some S754_nan
  else None.

Definition float_of_str (s : string) : option spec_float :=
  match drop_underscores "000"%char (list_ascii_of_string s) with
  | None => None
  | Some l =>
      let '(neg, body) := take_sign (strip l) in
      match parse_number neg body with
      | Some f => Some f
      | None => parse_inf_or_nan neg body
      end
  end.

End PyFloat.

(** ** posixpath *)

Module PosixPath.

Definition startswith (s p : string) : bool := String.prefix p s.

(** [s.endswith(suffix)] *)
Definition endswith (s suffix : string) : bool :=
  let n := String.length s in
  let m := String.length suffix in
  (m <=? n)%nat && String.eqb (String.substring (n - m) m s) suffix.

(** [os.path.join(a, b)] *)
Definition join (a b : string) : string :=
  if startswith b "/" then b
  else if String.eqb a EmptyString || endswith a "/" then a ++ b
  else a ++ "/" ++ b.

Fixpoint split_chars (sep : ascii) (l : list ascii) : list (list ascii) :=
  match l with
  | [] => [[]]
  | c :: l' =>
      let r := split_chars sep l' in
      if Ascii.eqb c sep then [] :: r
      else match r with
           | h :: t => (c :: h) :: t
           | [] => [[c]]
           end
  end.

(** [path.split('/')] *)
Definition split_slash (path : string) : list string :=
  map string_of_list_ascii (split_chars "/"%char (list_ascii_of_string path)).

(** One turn of the loop of [normpath] over the components; [new_comps]
    is kept with its last element first. *)
Definition norm_step (rooted : bool) (new_comps : list string) (comp : string)
    : list string :=
  if String.eqb comp EmptyString || String.eqb comp "." then new_comps
  else if negb (String.eqb comp "..") then comp :: new_comps
  else match new_comps with
       | [] => if rooted then [] else [comp]
       | last :: before =>
           if String.eqb last ".." then comp :: new_comps else before
       end.

(** [os.path.normpath(path)] *)
Definition normpath (path : string) : string :=
  if String.eqb path EmptyString then "."
  else
    let initial_slashes :=
      if startswith path "/" then
        if startswith path "//" && negb (startswith path "///") then "//" else "/"
      else EmptyString in
    let rooted := startswith path "/" in
    let comps := rev (fold_left (norm_step rooted) (split_slash path) []) in
    let joined := initial_slashes ++ String.concat "/" comps in
    if String.eqb joined EmptyString then "." else joined.

(** [os.path.abspath(path)], with the working directory [cwd]. *)
Definition abspath (cwd path : string) : string :=
  normpath (if startswith path "/" then path else join cwd path).

End PosixPath.

(** ** The normalised table *)

(** A row of the frame that [adjust_frame] returns.  [Object ID] is a
    float64 column that pandas creates filled with NaN; a cell is [None]
    for NaN and [Some k] for the float of the counter value [k] (which is
    exact below 2^53). *)
Record AdjustedRow := mkAdjusted
  { labels : Row Z;
    Relative_Width : spec_float;
    Relative_Height : spec_float;
    Object_ID : option Z }.

(** ** The world: file tree, working directory and operation log *)

(** The contents of a file, in the form its reader returns them.  A JSON
    document of another shape than [Tags.t], like any file that the reader
    in question cannot decode, is [other_data]. *)
Inductive FileData : Type :=
  | xml_doc (root : Element)
  | json_doc (tags : Tags.t)
  | csv_doc (table : list AdjustedRow)
  | other_data (bytes : string).

Inductive Node : Type :=
  | Dir (entries : list string)
  | File (data : FileData).

(** What [parse_voc_folder] returns: the frame computed in memory, or
    whatever [pd.read_csv] makes of the contents of the cache artifact. *)
Inductive Table : Type :=
  | computed (frame : list AdjustedRow)
  | read_csv (data : FileData).

(** System-level operations, as logged in the order they happen. *)
Inductive Op : Type :=
  | op_exists (path : string)
  | op_listdir (path : string)
  | op_open (path : string)
  | op_parse_xml (path : string)
  | op_read_csv (path : string)
  | op_to_csv (path : string)
  | op_print_value_counts (names : list Text).

Record World := mkWorld
  { fs : gmap string Node;
    cwd : string;
    trace : list Op }.

Definition log (op : Op) (w : World) : World :=
  mkWorld (fs w) (cwd w) (trace w ++ [op]).

Definition write (path : string) (data : FileData) (w : World) : World :=
  mkWorld (<[path := File data]> (fs w)) (cwd w) (trace w).

Module IO.

Definition t (A : Type) : Type := World -> Result A * World.

Definition ret {A} (a : A) : t A := fun w => (Ok a, w).

Definition raise {A} (e : Exn) : t A := fun w => (Raise e, w).

Definition bind {A B} (m : t A) (k : A -> t B) : t B :=
  fun w =>
    match m w with
    | (Ok a, w') => k a w'
    | (Raise e, w') => (Raise e, w')
    end.

Definition lift {A} (r : Result A) : t A := fun w => (r, w).

(** [assert b] *)
Definition assert (b : bool) : t unit :=
  if b then ret tt else raise AssertionError.

End IO.

Declare Scope io_scope.
Delimit Scope io_scope with io.
Notation "x <- m ;; k" := (IO.bind m (fun x => k))
  (at level 100, m at next level, right associativity) : io_scope.
Notation "m ;; k" := (IO.bind m (fun _ => k))
  (at level 100, right associativity) : io_scope.

(** *** Library calls that touch the world *)

Definition os_path_exists (path : string) : IO.t bool :=
  fun w => (Ok (bool_decide (is_Some (fs w !! path))), log (op_exists path) w).

Definition os_listdir (path : string) : IO.t (list string) :=
  fun w =>
    (match fs w !! path with
     | Some (Dir entries) => Ok entries
     | Some (File _) => Raise (NotADirectoryError path)
     | None => Raise (FileNotFoundError path)
     end, log (op_listdir path) w).

(** [with open(path) as json_data: tags = json.load(json_data)] *)
Definition json_load (path : string) : IO.t Tags.t :=
  fun w =>
    (match fs w !! path with
     | Some (File (json_doc tags)) => Ok tags
     | Some (File _) => Raise (JSONDecodeError path)
     | Some (Dir _) => Raise (IsADirectoryError path)
     | None => Raise (FileNotFoundError path)
     end, log (op_open path) w).

Definition ElementTree_parse (path : string) : IO.t Element :=
  fun w =>
    (match fs w !! path with
     | Some (File (xml_doc root)) => Ok root
     | Some (File _) => Raise (ParseError path)
     | Some (Dir _) => Raise (IsADirectoryError path)
     | None => Raise (FileNotFoundError path)
     end, log (op_parse_xml path) w).

Definition pd_read_csv (path : string) : IO.t Table :=
  fun w =>
    (match fs w !! path with
     | Some (File data) => Ok (read_csv data)
     | Some (Dir _) => Raise (IsADirectoryError path)
     | None => Raise (FileNotFoundError path)
     end, log (op_read_csv path) w).

(** [frame.to_csv(path, index=False)]: the artifact is created or
    overwritten; the cache location is taken to be writable. *)
Definition to_csv (frame : list AdjustedRow) (path : string) : IO.t unit :=
  fun w => (Ok tt, write path (csv_doc frame) (log (op_to_csv path) w)).

(** [print(f'Parsed labels:\n{names.value_counts()}')] *)
Definition print_value_counts (names : list Text) : IO.t unit :=
  fun w => (Ok tt, log (op_print_value_counts names) w).

Definition os_path_abspath (path : string) : IO.t string :=
  fun w => (Ok (PosixPath.abspath (cwd w) path), w).

(** ** parse_voc_file *)

Definition parse_voc_file (file_path voc_conf : string) : IO.t (list RawRow) :=
  (present <- os_path_exists file_path ;;
   IO.assert present ;;
   tags <- json_load voc_conf ;;
   tree <- ElementTree_parse file_path ;;
   IO.lift (tree_rows tags file_path tree))%io.

(** ** adjust_frame *)

(** [repr] of a string without quotes, backslashes or control characters. *)
Definition repr (s : string) : string := "'" ++ s ++ "'".

Definition could_not_convert (s : string) : string :=
  "could not convert string to float: " ++ repr s.

Definition non_finite_values : string :=
  "Cannot convert non-finite values (NA or inf) to integer".

(** One element of [column.astype(float)] on an object column: [None]
    becomes NaN, a string goes through [float]. *)
Definition cell_to_float (c : Text) : Result spec_float :=
  match c with
  | None => Ok S754_nan
  | Some s =>
      match PyFloat.float_of_str s with
      | Some f => Ok f
      | None => Raise (ValueError (could_not_convert s))
      end
  end.

(** [column.astype(int)] on a float64 column: refused as soon as one value
    is NaN or infinite, an element-wise cast otherwise. *)
Definition floats_to_int (column : list spec_float) : Result (list Z) :=
  if forallb Float64.is_finite column then Ok (map Float64.to_int64 column)
  else Raise (ValueError non_finite_values).

(** [column.astype(float).astype(int)] *)
Definition astype_float_int (column : list Text) : Result (list Z) :=
  (let! floats := for_each cell_to_float column in floats_to_int floats)%result.

(** The frame after the six assignments [frame[item] = ...] of the
    coercion loop: each new column is aligned with the rows by position. *)
Fixpoint typed_rows (frame : list RawRow) (ws hs x0s y0s x1s y1s : list Z)
    : list (Row Z) :=
  match frame, ws, hs, x0s, y0s, x1s, y1s with
  | r :: frame', w :: ws', h :: hs', x0 :: x0s', y0 :: y0s', x1 :: x1s', y1 :: y1s' =>
      mkRow (Image_Path r) (Object_Name r) w h x0 y0 x1 y1
      :: typed_rows frame' ws' hs' x0s' y0s' x1s' y1s'
  | _, _, _, _, _, _, _ => []
  end.

(** [(frame['X_max'] - frame['X_min']) / frame['Image Width']] on one row:
    an int64 subtraction, then the true division of two int64 values,
    which converts both to float64 and divides. *)
Definition relative_width (r : Row Z) : spec_float :=
  Float64.div (Float64.of_Z (Int64.sub (X_max r) (X_min r)))
              (Float64.of_Z (Image_Width r)).

Definition relative_height (r : Row Z) : spec_float :=
  Float64.div (Float64.of_Z (Int64.sub (Y_max r) (Y_min r)))
              (Float64.of_Z (Image_Height r)).

(** [column.drop_duplicates()]: the first occurrence of each value, in
    order; [seen] holds the values met so far. *)
Fixpoint drop_duplicates_from (seen column : list Text) : list Text :=
  match column with
  | [] => []
  | x :: column' =>
      if bool_decide (x ∈ seen) then drop_duplicates_from seen column'
      else x :: drop_duplicates_from (x :: seen) column'
  end.

Definition drop_duplicates (column : list Text) : list Text :=
  drop_duplicates_from [] column.

(** One element of the mask [frame['Object Name'] == object_name]; the
    comparison with [None] is false everywhere. *)
Definition name_matches (object_name name : Text) : bool :=
  match object_name, name with
  | Some a, Some b => String.eqb b a
  | _, _ => false
  end.

(** [frame.loc[frame['Object Name'] == object_name, 'Object ID'] = object_id] *)
Definition set_object_id (names : list Text) (object_name : Text)
    (object_id : Z) (ids : list (option Z)) : list (option Z) :=
  zip_with (fun name id => if name_matches object_name name then Some object_id else id)
           names ids.

(** The loop over the distinct names, with its counter. *)
Fixpoint assign_object_ids (names distinct : list Text) (object_id : Z)
    (ids : list (option Z)) : list (option Z) :=
  match distinct with
  | [] => ids
  | object_name :: distinct' =>
      assign_object_ids names distinct' (object_id + 1)
                        (set_object_id names object_name object_id ids)
  end.

Definition cache_path_of (cache_file : string) : string :=
  PosixPath.join (PosixPath.join ".." "Caches") cache_file.

Definition adjust_frame (frame : list RawRow) (cache_file : string)
    : IO.t (list AdjustedRow) :=
  (let object_id := 1 in
   ws <- IO.lift (astype_float_int (map Image_Width frame)) ;;
   hs <- IO.lift (astype_float_int (map Image_Height frame)) ;;
   x0s <- IO.lift (astype_float_int (map X_min frame)) ;;
   y0s <- IO.lift (astype_float_int (map Y_min frame)) ;;
   x1s <- IO.lift (astype_float_int (map X_max frame)) ;;
   y1s <- IO.lift (astype_float_int (map Y_max frame)) ;;
   let typed := typed_rows frame ws hs x0s y0s x1s y1s in
   let names := map Object_Name typed in
   let ids :=
     assign_object_ids names (drop_duplicates names) object_id
                       (replicate (length names) None) in
   let frame' :=
     zip_with (fun r id => mkAdjusted r (relative_width r) (relative_height r) id)
              typed ids in
   to_csv frame' (cache_path_of cache_file) ;;
   print_value_counts names ;;
   IO.ret frame')%io.

(** ** parse_voc_folder *)

(** Modelled from the spec: [visualization_wrapper], the decorator that
    [parse_voc_folder] is defined under, comes from the module
    [visual_tools], which is not among the sources.  The specification
    describes it as a hook around the aggregator that is handed the table
    produced and hands it back unchanged, the contract of the aggregator
    being the same with or without it. *)
Definition visualization_wrapper {A B C D}
    (to_visualize : A -> B -> C -> IO.t D) : A -> B -> C -> IO.t D :=
  fun a b c => to_visualize a b c.

Definition default_cache_file : string := "data_set_labels.csv".

Definition annotation_suffix : string := ".xml".

Definition no_labels_found (abs_folder : string) : string :=
  "No labels were found in " ++ abs_folder.

(** The loop over [os.listdir(folder_path)], with the rows gathered so
    far. *)
Fixpoint collect_labels (folder_path voc_conf : string) (file_names : list string)
    (image_data : list RawRow) : IO.t (list RawRow) :=
  match file_names with
  | [] => IO.ret image_data
  | file_name :: rest =>
      if PosixPath.endswith file_name annotation_suffix then
        (let annotation_path := PosixPath.join folder_path file_name in
         image_labels <- parse_voc_file annotation_path voc_conf ;;
         collect_labels folder_path voc_conf rest (image_data ++ image_labels)%list)%io
      else collect_labels folder_path voc_conf rest image_data
  end.

(** The function under the decorator. *)
Definition parse_voc_folder_def (folder_path voc_conf cache_file : string)
    : IO.t Table :=
  (present <- os_path_exists folder_path ;;
   IO.assert present ;;
   let cache_path := cache_path_of cache_file in
   cached <- os_path_exists cache_path ;;
   if (cached : bool) then pd_read_csv cache_path
   else
     file_names <- os_listdir folder_path ;;
     image_data <- collect_labels folder_path voc_conf file_names [] ;;
     match image_data with
     | [] =>
         abs_folder <- os_path_abspath folder_path ;;
         IO.raise (ValueError (no_labels_found abs_folder))
     | _ :: _ =>
         frame <- adjust_frame image_data cache_file ;;
         IO.ret (computed frame)
     end)%io.

Definition parse_voc_folder : string -> string -> string -> IO.t Table :=
  visualization_wrapper parse_voc_folder_def.

(** * Properties *)

(** ** What a complete document is

    The required fields are the ones [parse_voc_file] looks up as single
    nodes: the image path, the size container with width and height, and,
    in every object node, the name and the box container with its four
    corners.  Object nodes themselves are looked up with [find_all] and
    may be absent. *)

Definition present (parent : Element) (tag : string) : bool :=
  match find parent tag with Some _ => true | None => false end.

Definition box_complete (tags : Tags.t) (box_item : Element) : bool :=
  let box := Tags.Object_Box (Tags.Object tags) in
  present box_item (Tags.X0 box) && present box_item (Tags.Y0 box)
  && present box_item (Tags.X1 box) && present box_item (Tags.Y1 box).

Definition object_complete (tags : Tags.t) (item : Element) : bool :=
  present item (Tags.Object_Name (Tags.Object tags))
  && match find item (Tags.Object_Box_Tag (Tags.Object_Box (Tags.Object tags))) with
     | Some box_item => box_complete tags box_item
     | None => false
     end.

Definition header_complete (tags : Tags.t) (tree : Element) : bool :=
  present tree (Tags.Path (Tags.Tree tags))
  && match find tree (Tags.Size_Tag (Tags.Size tags)) with
     | Some size_item =>
         present size_item (Tags.Width (Tags.Size tags))
         && present size_item (Tags.Height (Tags.Size tags))
     | None => false
     end.

Definition object_items (tags : Tags.t) (tree : Element) : list Element :=
  findall tree (Tags.Object_Tag (Tags.Object tags)).

Definition required_fields_present (tags : Tags.t) (tree : Element) : bool :=
  header_complete tags tree && forallb (object_complete tags) (object_items tags tree).

(** The text of the first [tag] child of [parent], when there is one. *)
Definition child_text (parent : Element) (tag : string) : Text :=
  match find parent tag with Some e => text e | None => None end.

Definition grandchild_text (parent : Element) (tag tag' : string) : Text :=
  match find parent tag with Some e => child_text e tag' | None => None end.

(** The row that a complete document owes to one of its object nodes. *)
Definition expected_row (tags : Tags.t) (tree item : Element) : RawRow :=
  let size := Tags.Size tags in
  let obj := Tags.Object tags in
  let box := Tags.Object_Box obj in
  mkRow (child_text tree (Tags.Path (Tags.Tree tags)))
        (child_text item (Tags.Object_Name obj))
        (grandchild_text tree (Tags.Size_Tag size) (Tags.Width size))
        (grandchild_text tree (Tags.Size_Tag size) (Tags.Height size))
        (grandchild_text item (Tags.Object_Box_Tag box) (Tags.X0 box))
        (grandchild_text item (Tags.Object_Box_Tag box) (Tags.Y0 box))
        (grandchild_text item (Tags.Object_Box_Tag box) (Tags.X1 box))
        (grandchild_text item (Tags.Object_Box_Tag box) (Tags.Y1 box)).

(** [Missing tags tree tag]: the required field [tag] is absent from the
    place where the document should have it. *)
Inductive Missing (tags : Tags.t) (tree : Element) : string -> Prop :=
  | missing_path :
      find tree (Tags.Path (Tags.Tree tags)) = None ->
      Missing tags tree (Tags.Path (Tags.Tree tags))
  | missing_size :
      find tree (Tags.Size_Tag (Tags.Size tags)) = None ->
      Missing tags tree (Tags.Size_Tag (Tags.Size tags))
  | missing_in_size size_item tag :
      find tree (Tags.Size_Tag (Tags.Size tags)) = Some size_item ->
      tag = Tags.Width (Tags.Size tags) \/ tag = Tags.Height (Tags.Size tags) ->
      find size_item tag = None ->
      Missing tags tree tag
  | missing_in_object item tag :
      In item (object_items tags tree) ->
      tag = Tags.Object_Name (Tags.Object tags)
      \/ tag = Tags.Object_Box_Tag (Tags.Object_Box (Tags.Object tags)) ->
      find item tag = None ->
      Missing tags tree tag
  | missing_in_box item box_item tag :
      In item (object_items tags tree) ->
      find item (Tags.Object_Box_Tag (Tags.Object_Box (Tags.Object tags))) = Some box_item ->
      In tag [Tags.X0 (Tags.Object_Box (Tags.Object tags));
              Tags.Y0 (Tags.Object_Box (Tags.Object tags));
              Tags.X1 (Tags.Object_Box (Tags.Object tags));
              Tags.Y1 (Tags.Object_Box (Tags.Object tags))] ->
      find box_item tag = None ->
      Missing tags tree tag.

(** ** What normalisation computes

    [coercible] tells whether a cell passes [astype(float).astype(int)]:
    it must read as a float and the float must be finite.  [coerce] is the
    integer it becomes. *)

Definition coercible (c : Text) : bool :=
  match cell_to_float c with
  | Ok f => Float64.is_finite f
  | Raise _ => false
  end.

Definition coerce (c : Text) : Z :=
  match cell_to_float c with
  | Ok f => Float64.to_int64 f
  | Raise _ => 0
  end.

Definition row_coercible (r : RawRow) : bool :=
  coercible (Image_Width r) && coercible (Image_Height r)
  && coercible (X_min r) && coercible (Y_min r)
  && coercible (X_max r) && coercible (Y_max r).

Definition coerce_row (r : RawRow) : Row Z :=
  mkRow (Image_Path r) (Object_Name r)
        (coerce (Image_Width r)) (coerce (Image_Height r))
        (coerce (X_min r)) (coerce (Y_min r))
        (coerce (X_max r)) (coerce (Y_max r)).

(** The [Object ID] column for a column of names. *)
Definition object_ids (names : list Text) : list (option Z) :=
  assign_object_ids names (drop_duplicates names) 1 (replicate (length names) None).

(** The position of the first occurrence of [x] in [l] ([length l] when
    there is none). *)
Fixpoint first_index (x : Text) (l : list Text) : nat :=
  match l with
  | [] => O
  | y :: l' => if bool_decide (y = x) then O else S (first_index x l')
  end.

(** The identifier of a class: one more than its rank among the distinct
    names in order of first appearance. *)
Definition class_id (names : list Text) (name : Text) : Z :=
  Z.of_nat (first_index name (drop_duplicates names)) + 1.

(** The cell that the loop over [distinct], started with the counter at
    [object_id], leaves in a row named [name] that held [id]. *)
Definition assigned (distinct : list Text) (object_id : Z) (name : Text)
    (id : option Z) : option Z :=
  match name with
  | Some _ =>
      if bool_decide (name ∈ distinct)
      then Some (object_id + Z.of_nat (first_index name distinct))
      else id
  | None => id
  end.

(** The [Object ID] cell of a row named [name]: NaN when the row has no
    name, the identifier of its class otherwise. *)
Definition id_cell (names : list Text) (name : Text) : option Z :=
  match name with
  | Some _ => Some (class_id names name)
  | None => None
  end.

(** The six cells of a raw row that the coercion loop visits. *)
Definition geometry_cells (r : RawRow) : list Text :=
  [Image_Width r; Image_Height r; X_min r; Y_min r; X_max r; Y_max r].

(** A cell is numeric when it holds a text that [float] accepts. *)
Definition numeric (c : Text) : bool :=
  match c with
  | Some s => match PyFloat.float_of_str s with Some _ => true | None => false end
  | None => false
  end.

(** A finite float is the fraction [numerator / denominator], the
    denominator being a power of two. *)
Definition numerator (f : spec_float) : Z :=
  match f with
  | S754_finite s m e => (if s then Zneg m else Zpos m) * 2 ^ Z.max e 0
  | _ => 0
  end.

Definition denominator (f : spec_float) : Z :=
  match f with
  | S754_finite _ _ e => 2 ^ Z.max (- e) 0
  | _ => 1
  end.

Definition adjusted_row (r : Row Z) (id : option Z) : AdjustedRow :=
  mkAdjusted r (relative_width r) (relative_height r) id.

(** The table that [adjust_frame] builds from a coercible frame. *)
Definition normalized (frame : list RawRow) : list AdjustedRow :=
  zip_with adjusted_row (map coerce_row frame)
           (object_ids (map Object_Name frame)).

(** The world after a successful [adjust_frame]. *)
Definition after_adjust (frame : list RawRow) (cache_file : string) (w : World)
    : World :=
  log (op_print_value_counts (map Object_Name frame))
      (write (cache_path_of cache_file) (csv_doc (normalized frame))
             (log (op_to_csv (cache_path_of cache_file)) w)).

(** ** What aggregation does to the world *)

Definition logs (ops : list Op) (w : World) : World :=
  mkWorld (fs w) (cwd w) (trace w ++ ops).

(** The operations of one successful call of [parse_voc_file]. *)
Definition file_ops (voc_conf file_path : string) : list Op :=
  [op_exists file_path; op_open voc_conf; op_parse_xml file_path].

Definition is_annotation (file_name : string) : bool :=
  PosixPath.endswith file_name annotation_suffix.

(** The operations of a call of [parse_voc_folder] that finds no cache
    artifact, up to the end of the loop over the [selected] entries. *)
Definition miss_ops (folder_path voc_conf cache_file : string)
    (selected : list string) : list Op :=
  [op_exists folder_path; op_exists (cache_path_of cache_file);
   op_listdir folder_path]
  ++ flat_map (fun f => file_ops voc_conf (PosixPath.join folder_path f)) selected.

(** The operations of a call that finds the artifact. *)
Definition hit_ops (folder_path cache_file : string) : list Op :=
  [op_exists folder_path; op_exists (cache_path_of cache_file);
   op_read_csv (cache_path_of cache_file)].

(** ** Sample data

    The tag mapping of the repository's [voc_conf.json], a small folder of
    annotation files and a world that holds them. *)

Module Sample.

Definition voc_tags : Tags.t :=
  {| Tags.Tree := {| Tags.Path := "path" |};
     Tags.Size :=
       {| Tags.Size_Tag := "size"; Tags.Width := "width"; Tags.Height := "height" |};
     Tags.Object :=
       {| Tags.Object_Tag := "object";
          Tags.Object_Name := "name";
          Tags.Object_Box :=
            {| Tags.Object_Box_Tag := "bndbox";
               Tags.X0 := "xmin"; Tags.Y0 := "ymin";
               Tags.X1 := "xmax"; Tags.Y1 := "ymax" |} |} |}.

Definition leaf (tag value : string) : Element := Elem tag (Some value) [].

Definition object_node (name x0 y0 x1 y1 : string) : Element :=
  Elem "object" None
       [leaf "name" name;
        Elem "bndbox" None
             [leaf "xmin" x0; leaf "ymin" y0; leaf "xmax" x1; leaf "ymax" y1]].

Definition annotation (path width height : string) (objects : list Element)
    : Element :=
  Elem "annotation" None
       (leaf "path" path
        :: Elem "size" None [leaf "width" width; leaf "height" height]
        :: objects).

Definition cat_doc : Element :=
  annotation "img1.jpg" "100" "200" [object_node "cat" "10" "20" "50" "120"].

Definition dog_cat_doc : Element :=
  annotation "img2.jpg" "100" "200"
             [object_node "dog" "1" "2" "3" "4";
              object_node "cat" "0" "0" "12.5" "9"].

(** An annotation whose size container has no width field. *)
Definition no_width_doc : Element :=
  Elem "annotation" None
       [leaf "path" "img3.jpg";
        Elem "size" None [leaf "height" "200"];
        object_node "cat" "10" "20" "50" "120"].

Definition no_object_doc : Element := annotation "img4.jpg" "100" "200" [].

Definition row (path name width height x0 y0 x1 y1 : string) : RawRow :=
  mkRow (Some path) (Some name) (Some width) (Some height)
        (Some x0) (Some y0) (Some x1) (Some y1).

Definition cat_rows : list RawRow :=
  [row "img1.jpg" "cat" "100" "200" "10" "20" "50" "120"].

Definition dog_cat_rows : list RawRow :=
  [row "img2.jpg" "dog" "100" "200" "1" "2" "3" "4";
   row "img2.jpg" "cat" "100" "200" "0" "0" "12" "9";
   row "img5.jpg" "dog" "64" "64" "8" "8" "40" "56"].

Definition zero_width_rows : list RawRow :=
  [row "img6.jpg" "cat" "0" "200" "10" "20" "50" "120"].

Definition fractional_rows : list RawRow :=
  [row "img7.jpg" "cat" "100.9" "200" "-12.5" "20" "12.5" "120"].

Definition bad_rows : list RawRow :=
  [row "img1.jpg" "cat" "100" "200" "10" "20" "50" "120";
   row "img8.jpg" "cat" "100" "tall" "10" "20" "50" "120"].

(** The row that normalisation makes of the row of [cat_rows]. *)
Definition cat_adjusted : AdjustedRow :=
  adjusted_row (coerce_row (row "img1.jpg" "cat" "100" "200" "10" "20" "50" "120"))
               (Some 1).

Definition world : World :=
  mkWorld
    (list_to_map
       [("data", Dir ["a.xml"; "notes.txt"; "b.xml"]);
        ("data/a.xml", File (xml_doc cat_doc));
        ("data/b.xml", File (xml_doc dog_cat_doc));
        ("data/notes.txt", File (other_data "to do"));
        ("broken/c.xml", File (xml_doc no_width_doc));
        ("empty", Dir ["readme.md"; "d.xml"]);
        ("empty/d.xml", File (xml_doc no_object_doc));
        ("voc_conf.json", File (json_doc voc_tags))])
    "/home/user/yolo/Helpers" [].

(** The world once the labels of the folder [data] have been cached. *)
Definition cached_world : World :=
  write (cache_path_of "labels.csv")
        (csv_doc (normalized (dog_cat_rows ++ cat_rows))) world.

(** The world after [adjust_frame] has been called on an empty frame. *)
Definition empty_cache_world : World :=
  snd (adjust_frame [] "labels.csv" world).

End Sample.

(** ** Vocabulary for errors, signs and effects *)

(** The first text of a column that [float] refuses. *)
Fixpoint first_unparsable (column : list Text) : option string :=
  match column with
  | [] => None
  | None :: column' => first_unparsable column'
  | Some s :: column' =>
      match PyFloat.float_of_str s with
      | Some _ => first_unparsable column'
      | None => Some s
      end
  end.

(** The columns of [frame.columns[2:]], in the order of the loop. *)
Definition geometry_columns (frame : list RawRow) : list (list Text) :=
  [map Image_Width frame; map Image_Height frame; map X_min frame;
   map Y_min frame; map X_max frame; map Y_max frame].

(** The sign bit of a float; NaN has none. *)
Definition is_negative (f : spec_float) : bool :=
  match f with
  | S754_zero s | S754_infinity s | S754_finite s _ _ => s
  | S754_nan => false
  end.

(** The tags that [parse_voc_file] looks up among the children of the
    root. *)
Definition root_tags (tags : Tags.t) : list string :=
  [Tags.Path (Tags.Tree tags); Tags.Size_Tag (Tags.Size tags);
   Tags.Object_Tag (Tags.Object tags)].

(** More sample data: a folder whose second annotation lacks its width, a
    path that is a plain file, and a document with elements that the tag
    mapping does not mention. *)
Module Fixture.

Definition mixed_world : World :=
  mkWorld
    (list_to_map
       [("mix", Dir ["a.xml"; "c.xml"; "b.xml"]);
        ("mix/a.xml", File (xml_doc Sample.cat_doc));
        ("mix/c.xml", File (xml_doc Sample.no_width_doc));
        ("mix/b.xml", File (xml_doc Sample.dog_cat_doc));
        ("plain", File (other_data "not a folder"));
        ("garbled.xml", File (other_data "<annotation>"));
        ("voc_conf.json", File (json_doc Sample.voc_tags))])
    "/home/user/yolo/Helpers" [].

Definition extra_node : Element := Sample.leaf "segmented" "0".

Definition sample_docs (file_name : string) : Element :=
  if String.eqb file_name "a.xml" then Sample.cat_doc else Sample.dog_cat_doc.

(** The rows of the sample folder [data], in the order of its listing. *)
Definition data_rows : list RawRow :=
  [Sample.row "img1.jpg" "cat" "100" "200" "10" "20" "50" "120";
   Sample.row "img2.jpg" "dog" "100" "200" "1" "2" "3" "4";
   Sample.row "img2.jpg" "cat" "100" "200" "0" "0" "12.5" "9"].

Definition inf_then_text : list Text := [Some "inf"; None; Some "wide"; Some "tall"].

Definition late_width_rows : list RawRow :=
  [Sample.row "img1.jpg" "cat" "100" "200" "10" "20" "50" "big";
   Sample.row "img2.jpg" "cat" "wide" "200" "10" "20" "50" "120"].

End Fixture.

#[global] Arguments cache_path_of : simpl never.
#[global] Arguments PosixPath.join : simpl never.
#[global] Arguments PosixPath.abspath : simpl never.
#[global] Arguments PosixPath.endswith : simpl never.

(** ** The monads *)

Lemma get_tree_item_one parent tag file_path :
  get_tree_item parent tag file_path false =
  match find parent tag with
  | Some target => Ok target
  | None => Raise (ValueError (could_not_find tag file_path))
  end.
Proof. reflexivity. Qed.

Lemma get_tree_item_all parent tag file_path :
  get_tree_item parent tag file_path true = Ok (findall parent tag).
Proof. reflexivity. Qed.

Lemma for_each_ok {A B} (f : A -> Result B) (g : A -> B) xs :
  Forall (fun x => f x = Ok (g x)) xs -> for_each f xs = Ok (map g xs).
Proof.
  induction 1 as [|x xs Hx _ IH]; simpl; [reflexivity|].
  now rewrite Hx, IH.
Qed.

Lemma for_each_raise {A B} (f : A -> Result B) xs :
  Py.is_ok (for_each f xs) = false ->
  exists x e, In x xs /\ f x = Raise e /\ for_each f xs = Raise e.
Proof.
  induction xs as [|x xs IH]; simpl; [discriminate|].
  destruct (f x) as [y|e] eqn:Hx; simpl.
  - destruct (for_each f xs) as [ys|e]; simpl; [discriminate|].
    intros _. destruct IH as (x' & e' & Hin & Hx' & He); [reflexivity|].
    exists x', e'. repeat split; auto; congruence.
  - intros _. exists x, e. auto.
Qed.

Lemma for_each_ok_inv {A B} (f : A -> Result B) xs ys :
  for_each f xs = Ok ys -> forall x, In x xs -> Py.is_ok (f x) = true.
Proof.
  revert ys. induction xs as [|x xs IH]; simpl; intros ys H x' Hin; [tauto|].
  destruct (f x) eqn:Hx; simpl in H; [|discriminate].
  destruct (for_each f xs); simpl in H; [|discriminate].
  destruct Hin as [<-|Hin]; [now rewrite Hx|eauto].
Qed.

(** ** Extraction from one document *)

Section Extraction.

Variable tags : Tags.t.
Variable file_path : string.

Lemma object_row_complete tree image_path image_width image_height item :
  object_complete tags item = true ->
  object_row tags file_path image_path image_width image_height item =
  Ok (mkRow image_path (Object_Name (expected_row tags tree item))
            image_width image_height
            (X_min (expected_row tags tree item)) (Y_min (expected_row tags tree item))
            (X_max (expected_row tags tree item)) (Y_max (expected_row tags tree item))).
Proof.
  unfold object_complete, box_complete, present, object_row, expected_row,
    grandchild_text, child_text.
  rewrite ?get_tree_item_one. simpl. intros H.
  destruct (find item _) eqn:Hname in H |- *; simpl in *; [|discriminate].
  destruct (find item (Tags.Object_Box_Tag _)) as [box_item|] eqn:Hbox; simpl in *;
    [|discriminate].
  rewrite ?get_tree_item_one.
  destruct (find box_item (Tags.X0 _)); simpl in *; [|discriminate].
  destruct (find box_item (Tags.Y0 _)); simpl in *; [|discriminate].
  destruct (find box_item (Tags.X1 _)); simpl in *; [|discriminate].
  destruct (find box_item (Tags.Y1 _)); simpl in *; [|discriminate].
  reflexivity.
Qed.

Lemma object_row_incomplete tree image_path image_width image_height item :
  In item (object_items tags tree) ->
  object_complete tags item = false ->
  exists tag,
    Missing tags tree tag /\
    object_row tags file_path image_path image_width image_height item =
    Raise (ValueError (could_not_find tag file_path)).
Proof.
  intros Hin.
  unfold object_complete, box_complete, present, object_row.
  rewrite ?get_tree_item_one. simpl.
  destruct (find item (Tags.Object_Name _)) eqn:Hname; simpl.
  2:{ intros _. eexists. split; [|reflexivity].
      eapply missing_in_object; eauto. }
  destruct (find item (Tags.Object_Box_Tag _)) as [box_item|] eqn:Hbox; simpl.
  2:{ intros _. eexists. split; [|reflexivity].
      eapply missing_in_object; eauto. }
  rewrite ?get_tree_item_one.
  destruct (find box_item (Tags.X0 _)) eqn:H0; simpl.
  2:{ intros _. eexists. split; [|reflexivity].
      eapply missing_in_box; eauto. simpl; auto. }
  rewrite ?get_tree_item_one.
  destruct (find box_item (Tags.Y0 _)) eqn:H1; simpl.
  2:{ intros _. eexists. split; [|reflexivity].
      eapply missing_in_box; eauto. simpl; auto. }
  rewrite ?get_tree_item_one.
  destruct (find box_item (Tags.X1 _)) eqn:H2; simpl.
  2:{ intros _. eexists. split; [|reflexivity].
      eapply missing_in_box; eauto. simpl; auto. }
  rewrite ?get_tree_item_one.
  destruct (find box_item (Tags.Y1 _)) eqn:H3; simpl.
  2:{ intros _. eexists. split; [|reflexivity].
      eapply missing_in_box; eauto. simpl; auto 6. }
  discriminate.
Qed.

Lemma tree_rows_complete tree :
  required_fields_present tags tree = true ->
  tree_rows tags file_path tree =
  Ok (map (expected_row tags tree) (object_items tags tree)).
Proof.
  unfold required_fields_present, header_complete, present, tree_rows.
  rewrite ?get_tree_item_one, ?get_tree_item_all. intros H.
  apply andb_prop in H as [Hh Hobjs].
  destruct (find tree (Tags.Path _)) as [path_item|] eqn:Hpath; simpl in *;
    [|discriminate].
  destruct (find tree (Tags.Size_Tag _)) as [size_item|] eqn:Hsize; simpl in *;
    [|discriminate].
  rewrite ?get_tree_item_one.
  destruct (find size_item (Tags.Width _)) as [width_item|] eqn:Hw; simpl in *;
    [|discriminate].
  rewrite ?get_tree_item_one.
  destruct (find size_item (Tags.Height _)) as [height_item|] eqn:Hh'; simpl in *;
    [|discriminate].
  apply for_each_ok. rewrite forallb_forall in Hobjs.
  apply List.Forall_forall. intros item Hin.
  rewrite (object_row_complete tree) by auto.
  unfold expected_row, grandchild_text, child_text; simpl.
  now rewrite Hpath, Hsize, Hw, Hh'.
Qed.

Lemma tree_rows_incomplete tree :
  required_fields_present tags tree = false ->
  exists tag,
    Missing tags tree tag /\
    tree_rows tags file_path tree = Raise (ValueError (could_not_find tag file_path)).
Proof.
  unfold required_fields_present, header_complete, present, tree_rows.
  rewrite ?get_tree_item_one, ?get_tree_item_all.
  destruct (find tree (Tags.Path _)) as [path_item|] eqn:Hpath; simpl.
  2:{ intros _. eexists. split; [|reflexivity]. now apply missing_path. }
  destruct (find tree (Tags.Size_Tag _)) as [size_item|] eqn:Hsize; simpl.
  2:{ intros _. eexists. split; [|reflexivity]. now apply missing_size. }
  rewrite ?get_tree_item_one.
  destruct (find size_item (Tags.Width _)) as [width_item|] eqn:Hw; simpl.
  2:{ intros _. eexists. split; [|reflexivity].
      eapply missing_in_size; eauto. }
  rewrite ?get_tree_item_one.
  destruct (find size_item (Tags.Height _)) as [height_item|] eqn:Hh'; simpl.
  2:{ intros _. eexists. split; [|reflexivity].
      eapply missing_in_size; eauto. }
  intros Hobjs.
  destruct (for_each_raise
              (object_row tags file_path (text path_item) (text width_item)
                          (text height_item))
              (findall tree (Tags.Object_Tag (Tags.Object tags))))
    as (item & e & Hin & Hitem & Hall).
  - destruct (for_each _ _) as [rows|] eqn:Hrows; [|reflexivity].
    exfalso.
    assert (Hc : forallb (object_complete tags) (object_items tags tree) = true).
    { apply forallb_forall. intros item Hin.
      destruct (object_complete tags item) eqn:Hc; [reflexivity|].
      destruct (object_row_incomplete tree (text path_item) (text width_item)
                  (text height_item) item Hin Hc) as (tag & _ & Hr).
      pose proof (for_each_ok_inv _ _ _ Hrows item Hin) as Hok.
      rewrite Hr in Hok. discriminate. }
    rewrite Hc in Hobjs. discriminate.
  - destruct (object_complete tags item) eqn:Hc.
    + rewrite (object_row_complete tree) in Hitem by auto. discriminate.
    + destruct (object_row_incomplete tree (text path_item) (text width_item)
                  (text height_item) item Hin Hc) as (tag & Hm & Hr).
      exists tag. split; [assumption|]. rewrite Hall. congruence.
Qed.

End Extraction.

Lemma parse_voc_file_run w file_path voc_conf tags tree :
  fs w !! file_path = Some (File (xml_doc tree)) ->
  fs w !! voc_conf = Some (File (json_doc tags)) ->
  parse_voc_file file_path voc_conf w =
  (tree_rows tags file_path tree,
   log (op_parse_xml file_path) (log (op_open voc_conf) (log (op_exists file_path) w))).
Proof.
  intros Hx Hj. unfold parse_voc_file, IO.bind, os_path_exists, json_load,
    ElementTree_parse, IO.assert, IO.lift.
  simpl. rewrite bool_decide_eq_true_2 by (rewrite Hx; eauto).
  simpl. now rewrite Hj, Hx.
Qed.

Lemma missing_incomplete tags tree tag :
  Missing tags tree tag -> required_fields_present tags tree = false.
Proof.
  assert (Hobj : forall item,
             In item (object_items tags tree) ->
             object_complete tags item = false ->
             required_fields_present tags tree = false).
  { intros item Hin Hc. unfold required_fields_present.
    apply andb_false_iff. right.
    destruct (forallb _ _) eqn:Hall; [|reflexivity].
    rewrite forallb_forall in Hall. rewrite (Hall item Hin) in Hc. discriminate. }
  unfold required_fields_present, header_complete, present.
  destruct 1 as [H|H|size_item tag Hs [->| ->] H|item tag Hin [->| ->] H
                |item box_item tag Hin Hb Ht H].
  - now rewrite H.
  - rewrite H. simpl. now rewrite andb_false_r.
  - rewrite Hs, H. simpl. now rewrite andb_false_r.
  - rewrite Hs, H. simpl. now rewrite !andb_false_r.
  - apply (Hobj item Hin). unfold object_complete, present. now rewrite H.
  - apply (Hobj item Hin). unfold object_complete, present. rewrite H.
    now rewrite andb_false_r.
  - apply (Hobj item Hin). unfold object_complete, box_complete, present.
    rewrite Hb. simpl in Ht.
    destruct Ht as [<-|[<-|[<-|[<-|[]]]]]; rewrite H; simpl;
      now rewrite ?andb_false_r.
Qed.

(** C1.  An annotation file that exists, parses and has every required
    field yields exactly one row per object node, in document order, each
    with the path, width and height texts of the file; without object
    nodes the result is the empty list, not an error. *)
Theorem parse_voc_file_complete w file_path voc_conf tags tree :
  fs w !! file_path = Some (File (xml_doc tree)) ->
  fs w !! voc_conf = Some (File (json_doc tags)) ->
  required_fields_present tags tree = true ->
  exists rows,
    fst (parse_voc_file file_path voc_conf w) = Ok rows /\
    length rows = length (object_items tags tree) /\
    rows = map (expected_row tags tree) (object_items tags tree) /\
    Forall (fun r =>
              Image_Path r = child_text tree (Tags.Path (Tags.Tree tags)) /\
              Image_Width r =
                grandchild_text tree (Tags.Size_Tag (Tags.Size tags))
                                (Tags.Width (Tags.Size tags)) /\
              Image_Height r =
                grandchild_text tree (Tags.Size_Tag (Tags.Size tags))
                                (Tags.Height (Tags.Size tags))) rows /\
    (object_items tags tree = [] -> rows = []).
Proof.
  intros Hx Hj Hc.
  exists (map (expected_row tags tree) (object_items tags tree)).
  rewrite (parse_voc_file_run w file_path voc_conf tags tree Hx Hj). simpl.
  split; [now apply tree_rows_complete|].
  split; [now rewrite length_map|].
  split; [reflexivity|].
  split.
  - apply List.Forall_forall. intros r Hr.
    apply in_map_iff in Hr as (item & <- & _). now simpl.
  - now intros ->.
Qed.

Lemma parse_voc_file_complete_witness :
  exists rows,
    fst (parse_voc_file "data/b.xml" "voc_conf.json" Sample.world) = Ok rows /\
    length rows = length (object_items Sample.voc_tags Sample.dog_cat_doc) /\
    rows = map (expected_row Sample.voc_tags Sample.dog_cat_doc)
               (object_items Sample.voc_tags Sample.dog_cat_doc) /\
    Forall (fun r =>
              Image_Path r = child_text Sample.dog_cat_doc "path" /\
              Image_Width r = grandchild_text Sample.dog_cat_doc "size" "width" /\
              Image_Height r = grandchild_text Sample.dog_cat_doc "size" "height")
           rows /\
    (object_items Sample.voc_tags Sample.dog_cat_doc = [] -> rows = []).
Proof.
  apply (parse_voc_file_complete Sample.world "data/b.xml" "voc_conf.json"
           Sample.voc_tags Sample.dog_cat_doc); reflexivity.
Defined.

(** C6.  When a required field is absent from an annotation file,
    extraction raises the error whose message names a missing tag and the
    file path, and returns no rows; when the field is the only one absent,
    it is the one named. *)
Theorem parse_voc_file_missing w file_path voc_conf tags tree tag :
  fs w !! file_path = Some (File (xml_doc tree)) ->
  fs w !! voc_conf = Some (File (json_doc tags)) ->
  Missing tags tree tag ->
  (exists tag',
     Missing tags tree tag' /\
     fst (parse_voc_file file_path voc_conf w) =
     Raise (ValueError (could_not_find tag' file_path))) /\
  ((forall tag', Missing tags tree tag' -> tag' = tag) ->
   fst (parse_voc_file file_path voc_conf w) =
   Raise (ValueError (could_not_find tag file_path))).
Proof.
  intros Hx Hj Hm.
  rewrite (parse_voc_file_run w file_path voc_conf tags tree Hx Hj). simpl.
  destruct (tree_rows_incomplete tags file_path tree (missing_incomplete _ _ _ Hm))
    as (tag' & Hm' & Hr).
  split; [eauto|].
  intros Huniq. now rewrite Hr, (Huniq tag' Hm').
Qed.

Lemma parse_voc_file_missing_witness :
  (exists tag',
     Missing Sample.voc_tags Sample.no_width_doc tag' /\
     fst (parse_voc_file "broken/c.xml" "voc_conf.json" Sample.world) =
     Raise (ValueError (could_not_find tag' "broken/c.xml"))) /\
  ((forall tag', Missing Sample.voc_tags Sample.no_width_doc tag' -> tag' = "width") ->
   fst (parse_voc_file "broken/c.xml" "voc_conf.json" Sample.world) =
   Raise (ValueError (could_not_find "width" "broken/c.xml"))).
Proof.
  apply (parse_voc_file_missing Sample.world "broken/c.xml" "voc_conf.json"
           Sample.voc_tags Sample.no_width_doc "width");
    [reflexivity | reflexivity |].
  apply (missing_in_size Sample.voc_tags Sample.no_width_doc
           (Elem "size" None [Sample.leaf "height" "200"]) "width");
    [reflexivity | left; reflexivity | reflexivity].
Defined.

(** ** Coercion of the geometry columns *)

Lemma astype_float_int_ok column :
  forallb coercible column = true ->
  astype_float_int column = Ok (map coerce column).
Proof.
  intros H. unfold astype_float_int.
  assert (Hf : exists floats,
             for_each cell_to_float column = Ok floats /\
             forallb Float64.is_finite floats = true /\
             map Float64.to_int64 floats = map coerce column).
  { induction column as [|c column IH]; simpl in *.
    - exists []. auto.
    - apply andb_prop in H as [Hc Hrest].
      destruct (IH Hrest) as (floats & -> & Hfin & Hmap).
      unfold coercible, coerce in *.
      destruct (cell_to_float c) as [f|]; [|discriminate].
      exists (f :: floats). simpl. rewrite Hc, Hfin, Hmap. auto. }
  destruct Hf as (floats & -> & Hfin & Hmap). simpl.
  unfold floats_to_int. now rewrite Hfin, Hmap.
Qed.

Lemma astype_float_int_raise column :
  forallb coercible column = false ->
  exists msg, astype_float_int column = Raise (ValueError msg).
Proof.
  intros H. unfold astype_float_int.
  destruct (for_each cell_to_float column) as [floats|e] eqn:Hf; simpl.
  - unfold floats_to_int.
    destruct (forallb Float64.is_finite floats) eqn:Hfin; [|eauto].
    exfalso. revert floats Hf Hfin.
    induction column as [|c column IH]; simpl in *; [discriminate|].
    intros floats. unfold coercible in H.
    destruct (cell_to_float c) as [f|]; simpl; [|discriminate].
    destruct (for_each cell_to_float column) as [fs'|]; simpl; [|discriminate].
    intros [= <-]. simpl. intros Hfin. apply andb_prop in Hfin as [Hf Hfs].
    rewrite Hf in H. simpl in H. eapply IH; eauto.
  - clear H. revert e Hf.
    induction column as [|c column IH]; simpl; [discriminate|].
    intros e. unfold cell_to_float at 1.
    destruct c as [s|]; simpl.
    + destruct (PyFloat.float_of_str s); simpl.
      * destruct (for_each cell_to_float column); simpl; [discriminate|].
        intros [= <-]. eauto.
      * intros [= <-]. eauto.
    + destruct (for_each cell_to_float column); simpl; [discriminate|].
      intros [= <-]. eauto.
Qed.

Lemma forallb_row_column (frame : list RawRow) :
  forallb row_coercible frame =
  forallb coercible (map Image_Width frame)
  && forallb coercible (map Image_Height frame)
  && forallb coercible (map X_min frame)
  && forallb coercible (map Y_min frame)
  && forallb coercible (map X_max frame)
  && forallb coercible (map Y_max frame).
Proof.
  induction frame as [|r frame IH]; simpl; [reflexivity|].
  rewrite IH. unfold row_coercible.
  repeat match goal with
         | |- context [coercible ?c] => destruct (coercible c); simpl
         end; rewrite ?andb_false_r; try reflexivity.
Qed.

Lemma typed_rows_map (frame : list RawRow) :
  typed_rows frame
    (map coerce (map Image_Width frame)) (map coerce (map Image_Height frame))
    (map coerce (map X_min frame)) (map coerce (map Y_min frame))
    (map coerce (map X_max frame)) (map coerce (map Y_max frame))
  = map coerce_row frame.
Proof.
  induction frame as [|r frame IH]; simpl; [reflexivity|]. now rewrite IH.
Qed.

Lemma names_of_coerced (frame : list RawRow) :
  map Object_Name (map coerce_row frame) = map Object_Name frame.
Proof. rewrite map_map. reflexivity. Qed.

Lemma adjust_frame_ok frame cache_file w :
  forallb row_coercible frame = true ->
  adjust_frame frame cache_file w =
  (Ok (normalized frame), after_adjust frame cache_file w).
Proof.
  rewrite forallb_row_column. intros H.
  repeat (apply andb_prop in H as [H ?]).
  unfold adjust_frame, IO.bind, IO.lift, IO.ret.
  rewrite !astype_float_int_ok by assumption.
  rewrite typed_rows_map, names_of_coerced.
  reflexivity.
Qed.

Lemma adjust_frame_raise frame cache_file w :
  forallb row_coercible frame = false ->
  exists msg, adjust_frame frame cache_file w = (Raise (ValueError msg), w).
Proof.
  rewrite forallb_row_column. intros H.
  unfold adjust_frame, IO.bind, IO.lift.
  repeat match goal with
    | |- context [astype_float_int ?col] =>
        destruct (forallb coercible col) eqn:?;
        [ rewrite (astype_float_int_ok col) by assumption
        | destruct (astype_float_int_raise col) as (msg & ->); [assumption|];
          exists msg; reflexivity ]
    end.
  discriminate.
Qed.

(** ** Class identifiers *)

Lemma zip_with_same_left {A B} (f g : A -> B -> B) (l : list A) (m : list B) :
  zip_with f l (zip_with g l m) = zip_with (fun x y => f x (g x y)) l m.
Proof.
  revert m. induction l as [|x l IH]; intros [|y m]; simpl; [reflexivity..|].
  now rewrite IH.
Qed.

Lemma zip_with_constant {A B C} (f : A -> B -> C) (l : list A) (c : B) :
  zip_with f l (replicate (length l) c) = map (fun x => f x c) l.
Proof. induction l as [|x l IH]; simpl; [reflexivity|]. now rewrite IH. Qed.

Lemma zip_with_maps {A B C D} (f : B -> C -> D) (g : A -> B) (h : A -> C) l :
  zip_with f (map g l) (map h l) = map (fun x => f (g x) (h x)) l.
Proof. induction l as [|x l IH]; simpl; [reflexivity|]. now rewrite IH. Qed.

Section DropDuplicates.

Implicit Types (x a b : Text) (seen column : list Text).

Lemma elem_of_drop_duplicates_from x seen column :
  x ∈ drop_duplicates_from seen column <-> x ∈ column /\ x ∉ seen.
Proof.
  revert seen. induction column as [|y column IH]; intros seen; simpl.
  - rewrite elem_of_nil. tauto.
  - case_bool_decide as Hy.
    + rewrite IH, elem_of_cons. split; [tauto|].
      intros [[->|?] ?]; tauto.
    + rewrite elem_of_cons, IH, elem_of_cons, elem_of_cons. split.
      * intros [->|[? ?]]; [tauto|]. split; [tauto|]. intros ?. tauto.
      * intros [[->|?] ?]; [tauto|].
        destruct (decide (x = y)) as [->|]; [tauto|]. right. tauto.
Qed.

Lemma NoDup_drop_duplicates_from seen column :
  NoDup (drop_duplicates_from seen column).
Proof.
  revert seen. induction column as [|y column IH]; intros seen; simpl.
  - constructor.
  - case_bool_decide; [apply IH|].
    constructor; [|apply IH].
    rewrite elem_of_drop_duplicates_from, elem_of_cons. tauto.
Qed.

Lemma elem_of_drop_duplicates x column :
  x ∈ drop_duplicates column <-> x ∈ column.
Proof.
  unfold drop_duplicates. rewrite elem_of_drop_duplicates_from, elem_of_nil. tauto.
Qed.





End DropDuplicates.

Lemma name_matches_spec object_name s :
  name_matches object_name (Some s) = bool_decide (object_name = Some s).
Proof.
  symmetry. destruct object_name as [a|]; simpl name_matches.
  - destruct (String.eqb_spec s a) as [->|Hne].
    + now apply bool_decide_eq_true_2.
    + apply bool_decide_eq_false_2. congruence.
  - now apply bool_decide_eq_false_2.
Qed.

Lemma zip_with_unchanged {A B} (f : A -> B -> B) (l : list A) (m : list B) :
  length m = length l -> (forall x y, f x y = y) -> zip_with f l m = m.
Proof.
  intros Hlen Hf. revert m Hlen.
  induction l as [|x l IH]; intros [|y m]; simpl; try discriminate; [reflexivity|].
  intros [= Hlen]. now rewrite Hf, IH.
Qed.

Lemma assign_object_ids_spec names distinct object_id ids :
  NoDup distinct ->
  length ids = length names ->
  assign_object_ids names distinct object_id ids =
  zip_with (assigned distinct object_id) names ids.
Proof.
  intros Hnd. revert object_id ids.
  induction Hnd as [|d distinct Hd _ IH]; intros object_id ids Hlen; simpl.
  - symmetry. apply zip_with_unchanged; [assumption|].
    intros [s|] id; [unfold assigned|reflexivity].
    rewrite bool_decide_eq_false_2; [reflexivity|]. apply not_elem_of_nil.
  - rewrite IH.
    2:{ unfold set_object_id. rewrite length_zip_with. lia. }
    unfold set_object_id. rewrite zip_with_same_left.
    apply zip_with_ext; try reflexivity.
    intros [s|] id; [|now destruct d].
    unfold assigned. rewrite name_matches_spec. cbn [first_index].
    repeat case_bool_decide; subst;
      repeat match goal with
        | H : _ ∈ _ :: _ |- _ => apply elem_of_cons in H
        | H : _ ∉ _ :: _ |- _ => rewrite elem_of_cons in H
        end;
      try (exfalso; intuition congruence); try (f_equal; lia); reflexivity.
Qed.

Lemma object_ids_spec names :
  object_ids names = map (id_cell names) names.
Proof.
  unfold object_ids.
  rewrite assign_object_ids_spec
    by (apply NoDup_drop_duplicates_from || apply length_replicate).
  rewrite zip_with_constant. apply map_ext_in. intros [s|] Hin; simpl; [|reflexivity].
  rewrite bool_decide_eq_true_2.
  - unfold class_id. f_equal. lia.
  - apply elem_of_drop_duplicates. now apply list_elem_of_In.
Qed.

Lemma normalized_spec frame :
  normalized frame =
  map (fun r => adjusted_row (coerce_row r)
                             (id_cell (map Object_Name frame) (Object_Name r)))
      frame.
Proof.
  unfold normalized. rewrite object_ids_spec, map_map.
  apply (zip_with_maps adjusted_row coerce_row).
Qed.

(** ** Normalisation: what a successful run returns *)

Lemma adjust_frame_inv frame cache_file w out w' :
  adjust_frame frame cache_file w = (Ok out, w') ->
  forallb row_coercible frame = true /\
  out = normalized frame /\ w' = after_adjust frame cache_file w.
Proof.
  intros H. destruct (forallb row_coercible frame) eqn:Hc.
  - rewrite adjust_frame_ok in H by assumption. now inversion H.
  - destruct (adjust_frame_raise frame cache_file w Hc) as (msg & Hr). congruence.
Qed.

Lemma in_normalized frame r :
  In r (normalized frame) ->
  exists raw,
    In raw frame /\
    r = adjusted_row (coerce_row raw)
                     (id_cell (map Object_Name frame) (Object_Name raw)).
Proof.
  rewrite normalized_spec, in_map_iff. intros (raw & <- & Hin). eauto.
Qed.

(** C2.  In every row of the table that normalisation returns, the
    relative width is the quotient of [X_max - X_min] by the image width
    and the relative height the quotient of [Y_max - Y_min] by the image
    height, both taken on the integers that the row's texts were coerced
    to; with width 100, height 200 and box (10, 20, 50, 120) they are the
    floats written 0.40 and 0.50. *)
Theorem adjust_frame_relative_geometry frame cache_file w out w' r :
  adjust_frame frame cache_file w = (Ok out, w') ->
  In r out ->
  (exists raw, In raw frame /\ labels r = coerce_row raw) /\
  Relative_Width r =
    Float64.div (Float64.of_Z (Int64.sub (X_max (labels r)) (X_min (labels r))))
                (Float64.of_Z (Image_Width (labels r))) /\
  Relative_Height r =
    Float64.div (Float64.of_Z (Int64.sub (Y_max (labels r)) (Y_min (labels r))))
                (Float64.of_Z (Image_Height (labels r))) /\
  (Image_Width (labels r) = 100 -> Image_Height (labels r) = 200 ->
   X_min (labels r) = 10 -> Y_min (labels r) = 20 ->
   X_max (labels r) = 50 -> Y_max (labels r) = 120 ->
   PyFloat.float_of_str "0.40" = Some (Relative_Width r) /\
   PyFloat.float_of_str "0.50" = Some (Relative_Height r)).
Proof.
  intros Hrun Hin.
  apply adjust_frame_inv in Hrun as (_ & -> & _).
  apply in_normalized in Hin as (raw & Hraw & ->). simpl.
  split; [eauto|]. split; [reflexivity|]. split; [reflexivity|].
  unfold relative_width, relative_height. simpl.
  intros -> -> -> -> -> ->. split; vm_compute; reflexivity.
Qed.

Lemma adjust_frame_relative_geometry_witness :
  (exists raw, In raw Sample.cat_rows /\ labels Sample.cat_adjusted = coerce_row raw) /\
  Relative_Width Sample.cat_adjusted =
    Float64.div
      (Float64.of_Z (Int64.sub (X_max (labels Sample.cat_adjusted))
                               (X_min (labels Sample.cat_adjusted))))
      (Float64.of_Z (Image_Width (labels Sample.cat_adjusted))) /\
  Relative_Height Sample.cat_adjusted =
    Float64.div
      (Float64.of_Z (Int64.sub (Y_max (labels Sample.cat_adjusted))
                               (Y_min (labels Sample.cat_adjusted))))
      (Float64.of_Z (Image_Height (labels Sample.cat_adjusted))) /\
  (Image_Width (labels Sample.cat_adjusted) = 100 ->
   Image_Height (labels Sample.cat_adjusted) = 200 ->
   X_min (labels Sample.cat_adjusted) = 10 ->
   Y_min (labels Sample.cat_adjusted) = 20 ->
   X_max (labels Sample.cat_adjusted) = 50 ->
   Y_max (labels Sample.cat_adjusted) = 120 ->
   PyFloat.float_of_str "0.40" = Some (Relative_Width Sample.cat_adjusted) /\
   PyFloat.float_of_str "0.50" = Some (Relative_Height Sample.cat_adjusted)).
Proof.
  apply (adjust_frame_relative_geometry Sample.cat_rows "labels.csv" Sample.world
           [Sample.cat_adjusted]
           (after_adjust Sample.cat_rows "labels.csv" Sample.world)
           Sample.cat_adjusted).
  - vm_compute. reflexivity.
  - left. reflexivity.
Defined.

(** The scenario of the specification, run through [adjust_frame]: one
    row, relative width 0.40, relative height 0.50, identifier 1. *)
Example adjust_frame_cat_rows :
  fst (adjust_frame Sample.cat_rows "labels.csv" Sample.world) =
  Ok [mkAdjusted (mkRow (Some "img1.jpg") (Some "cat") 100 200 10 20 50 120)
                 (S754_finite false 7205759403792794 (-54))
                 (S754_finite false 4503599627370496 (-53))
                 (Some 1)].
Proof. vm_compute. reflexivity. Qed.




(** The scenario of the specification: with "dog" met before "cat", "dog"
    is class 1 and "cat" class 2, on every row. *)
Example adjust_frame_dog_before_cat :
  option_map (map (fun r => (Object_Name (labels r), Object_ID r)))
             (match fst (adjust_frame Sample.dog_cat_rows "labels.csv" Sample.world) with
              | Ok out => Some out
              | Raise _ => None
              end) =
  Some [(Some "dog", Some 1); (Some "cat", Some 2); (Some "dog", Some 1)].
Proof. vm_compute. reflexivity. Qed.

(** ** Zero image dimensions *)

Lemma div_by_zero_not_finite x :
  Float64.is_finite (Float64.div x (Float64.of_Z 0)) = false.
Proof. destruct x; reflexivity. Qed.

(** A frame with an image width of zero goes through [adjust_frame]
    without an exception; the relative width of its row is [+inf]. *)
Lemma adjust_frame_zero_width_returns :
  fst (adjust_frame Sample.zero_width_rows "labels.csv" Sample.world) =
  Ok [mkAdjusted (mkRow (Some "img6.jpg") (Some "cat") 0 200 10 20 50 120)
                 (S754_infinity false)
                 (S754_finite false 4503599627370496 (-53))
                 (Some 1)].
Proof. vm_compute. reflexivity. Qed.

(** C5, as the code has it.  A frame whose geometry cells all coerce is
    normalised without an exception whatever its image dimensions; in a
    row whose image width (height) is zero the relative width (height) is
    an infinity or NaN. *)
Theorem adjust_frame_zero_dimension frame cache_file w :
  forallb row_coercible frame = true ->
  exists out w',
    adjust_frame frame cache_file w = (Ok out, w') /\
    forall r, In r out ->
      (Image_Width (labels r) = 0 ->
       Float64.is_finite (Relative_Width r) = false) /\
      (Image_Height (labels r) = 0 ->
       Float64.is_finite (Relative_Height r) = false).
Proof.
  intros Hc. exists (normalized frame), (after_adjust frame cache_file w).
  split; [now apply adjust_frame_ok|].
  intros r Hin. apply in_normalized in Hin as (raw & _ & ->). simpl.
  unfold relative_width, relative_height. simpl.
  split; intros ->; apply div_by_zero_not_finite.
Qed.

Lemma adjust_frame_zero_dimension_witness :
  exists out w',
    adjust_frame Sample.zero_width_rows "labels.csv" Sample.world = (Ok out, w') /\
    forall r, In r out ->
      (Image_Width (labels r) = 0 ->
       Float64.is_finite (Relative_Width r) = false) /\
      (Image_Height (labels r) = 0 ->
       Float64.is_finite (Relative_Height r) = false).
Proof.
  apply (adjust_frame_zero_dimension Sample.zero_width_rows "labels.csv" Sample.world).
  vm_compute. reflexivity.
Defined.

(** ** Coercion of text to integer *)

Lemma numeric_coercible c : numeric c = false -> coercible c = false.
Proof.
  unfold numeric, coercible, cell_to_float. destruct c as [s|]; [|reflexivity].
  now destruct (PyFloat.float_of_str s).
Qed.

Lemma row_coercible_cells r c :
  In c (geometry_cells r) -> coercible c = false -> row_coercible r = false.
Proof.
  unfold geometry_cells, row_coercible. simpl.
  intros [<-|[<-|[<-|[<-|[<-|[<-|[]]]]]]] ->; now rewrite ?andb_false_r.
Qed.

Lemma row_coercible_inv r c :
  row_coercible r = true -> In c (geometry_cells r) -> coercible c = true.
Proof.
  intros Hr Hin. destruct (coercible c) eqn:Hc; [reflexivity|].
  rewrite (row_coercible_cells r c Hin Hc) in Hr. discriminate.
Qed.

Lemma forallb_false_in {A} (p : A -> bool) l x :
  In x l -> p x = false -> forallb p l = false.
Proof.
  intros Hin Hp. destruct (forallb p l) eqn:H; [|reflexivity].
  rewrite forallb_forall in H. rewrite (H x Hin) in Hp. discriminate.
Qed.

Lemma labels_normalized frame :
  map labels (normalized frame) = map coerce_row frame.
Proof. rewrite normalized_spec, map_map. reflexivity. Qed.

(** C8.  When normalisation returns, the six geometry columns of its table
    hold the integers that the texts were coerced to; when one of these
    cells holds no numeric text, it raises the conversion error
    ([ValueError]) and writes nothing. *)
Theorem adjust_frame_coercion frame cache_file w :
  (forall out w',
     adjust_frame frame cache_file w = (Ok out, w') ->
     map labels out = map coerce_row frame) /\
  (forall r c,
     In r frame -> In c (geometry_cells r) -> numeric c = false ->
     exists msg, adjust_frame frame cache_file w = (Raise (ValueError msg), w)).
Proof.
  split.
  - intros out w' Hrun. apply adjust_frame_inv in Hrun as (_ & -> & _).
    apply labels_normalized.
  - intros r c Hr Hc Hn. apply adjust_frame_raise.
    apply (forallb_false_in _ _ r Hr).
    apply (row_coercible_cells r c Hc). now apply numeric_coercible.
Qed.

(** A height that is not a number: the error of [float], naming the text. *)
Example adjust_frame_bad_rows :
  adjust_frame Sample.bad_rows "labels.csv" Sample.world =
  (Raise (ValueError "could not convert string to float: 'tall'"), Sample.world).
Proof. vm_compute. reflexivity. Qed.

(** ** Truncation *)

Lemma trunc_quot f :
  Float64.trunc f = Z.quot (numerator f) (denominator f).
Proof.
  destruct f as [s|s| |s m e]; try reflexivity.
  unfold Float64.trunc, numerator, denominator.
  destruct e as [|p|k].
  - simpl Z.max. rewrite Z.shiftl_0_r, Z.pow_0_r, Z.mul_1_r, Z.quot_1_r.
    now destruct s.
  - rewrite Z.max_l, Z.max_r by lia. rewrite Z.pow_0_r, Z.quot_1_r.
    rewrite Z.shiftl_mul_pow2 by lia. destruct s; [|reflexivity].
    now rewrite <- Z.mul_opp_l.
  - rewrite Z.max_r, Z.max_l by lia. rewrite Z.pow_0_r, Z.mul_1_r.
    rewrite Z.shiftr_div_pow2 by lia.
    change (- Z.neg k) with (Z.pos k).
    assert (Hpow : 0 < 2 ^ Z.pos k) by (apply Z.pow_pos_nonneg; lia).
    destruct s.
    + change (Z.neg m) with (- Z.pos m).
      rewrite Z.quot_opp_l by lia. f_equal.
      symmetry. apply Z.quot_div_nonneg; lia.
    + symmetry. apply Z.quot_div_nonneg; lia.
Qed.

(** C10.  A frame whose geometry cells all read as finite floats is not
    rejected: each cell becomes the int64 cast of its float, which, when
    it fits, is the quotient toward zero of the float's numerator by its
    denominator; the ratios are computed on these integers. *)
Theorem adjust_frame_truncates frame cache_file w :
  forallb row_coercible frame = true ->
  adjust_frame frame cache_file w =
    (Ok (normalized frame), after_adjust frame cache_file w) /\
  map labels (normalized frame) = map coerce_row frame /\
  (forall r c,
     In r frame -> In c (geometry_cells r) ->
     exists f,
       cell_to_float c = Ok f /\
       Float64.is_finite f = true /\
       coerce c = Float64.to_int64 f /\
       (Int64.in_range (Float64.trunc f) = true ->
        coerce c = Z.quot (numerator f) (denominator f))) /\
  (forall r,
     In r (normalized frame) ->
     Relative_Width r = relative_width (labels r) /\
     Relative_Height r = relative_height (labels r)).
Proof.
  intros Hc. split; [now apply adjust_frame_ok|].
  split; [apply labels_normalized|]. split.
  - intros r c Hr Hin.
    rewrite forallb_forall in Hc.
    pose proof (row_coercible_inv r c (Hc r Hr) Hin) as Hcell.
    unfold coercible, coerce in *.
    destruct (cell_to_float c) as [f|]; [|discriminate].
    exists f. repeat split; auto.
    intros Hrange. unfold Float64.to_int64. rewrite Hrange. apply trunc_quot.
  - intros r Hin. apply in_normalized in Hin as (raw & _ & ->). now simpl.
Qed.

Lemma adjust_frame_truncates_witness :
  adjust_frame Sample.fractional_rows "labels.csv" Sample.world =
    (Ok (normalized Sample.fractional_rows),
     after_adjust Sample.fractional_rows "labels.csv" Sample.world) /\
  map labels (normalized Sample.fractional_rows) =
    map coerce_row Sample.fractional_rows /\
  (forall r c,
     In r Sample.fractional_rows -> In c (geometry_cells r) ->
     exists f,
       cell_to_float c = Ok f /\
       Float64.is_finite f = true /\
       coerce c = Float64.to_int64 f /\
       (Int64.in_range (Float64.trunc f) = true ->
        coerce c = Z.quot (numerator f) (denominator f))) /\
  (forall r,
     In r (normalized Sample.fractional_rows) ->
     Relative_Width r = relative_width (labels r) /\
     Relative_Height r = relative_height (labels r)).
Proof.
  apply (adjust_frame_truncates Sample.fractional_rows "labels.csv" Sample.world).
  vm_compute. reflexivity.
Defined.

(** Texts with a fractional part lose it, toward zero: 100.9 becomes 100,
    -12.5 becomes -12 and 12.5 becomes 12. *)
Example adjust_frame_fractional_rows :
  option_map (map labels)
             (match fst (adjust_frame Sample.fractional_rows "labels.csv" Sample.world) with
              | Ok out => Some out
              | Raise _ => None
              end) =
  Some [mkRow (Some "img7.jpg") (Some "cat") 100 200 (-12) 20 12 120].
Proof. vm_compute. reflexivity. Qed.

(** ** Aggregation over a folder *)

Lemma logs_logs ops1 ops2 w : logs ops2 (logs ops1 w) = logs (ops1 ++ ops2) w.
Proof. unfold logs. simpl. now rewrite <- app_assoc. Qed.

Lemma logs_nil w : logs [] w = w.
Proof. destruct w. unfold logs. simpl. now rewrite app_nil_r. Qed.

Lemma parse_voc_file_ok_inv w file_path voc_conf rows :
  fst (parse_voc_file file_path voc_conf w) = Ok rows ->
  exists tags tree,
    fs w !! file_path = Some (File (xml_doc tree)) /\
    fs w !! voc_conf = Some (File (json_doc tags)) /\
    tree_rows tags file_path tree = Ok rows.
Proof.
  unfold parse_voc_file, IO.bind, os_path_exists, json_load, ElementTree_parse,
    IO.assert, IO.lift, IO.ret, IO.raise. simpl.
  destruct (bool_decide (is_Some (fs w !! file_path))); simpl; [|discriminate].
  destruct (fs w !! voc_conf) as [[|[| tags | |]]|]; simpl; try discriminate.
  destruct (fs w !! file_path) as [[|[tree| | |]]|]; simpl; try discriminate.
  eauto.
Qed.

Lemma collect_labels_ok folder_path voc_conf w0 file_names :
  forall rss image_data w,
    fs w = fs w0 ->
    for_each (fun f => fst (parse_voc_file (PosixPath.join folder_path f) voc_conf w0))
             (List.filter is_annotation file_names) = Ok rss ->
    collect_labels folder_path voc_conf file_names image_data w =
    (Ok (image_data ++ concat rss)%list,
     logs (flat_map (fun f => file_ops voc_conf (PosixPath.join folder_path f))
                    (List.filter is_annotation file_names)) w).
Proof.
  induction file_names as [|file_name rest IH]; simpl; intros rss image_data w Hfs.
  - intros [= <-]. simpl. now rewrite app_nil_r, logs_nil.
  - fold (is_annotation file_name).
    destruct (is_annotation file_name); simpl; [|now apply IH].
    destruct (fst (parse_voc_file _ voc_conf w0)) as [rows|] eqn:Hfile;
      simpl; [|discriminate].
    destruct (for_each _ _) as [rss'|] eqn:Hrest; simpl; [|discriminate].
    intros [= <-].
    apply parse_voc_file_ok_inv in Hfile as (tags & tree & Hx & Hj & Hrows).
    unfold IO.bind.
    rewrite (parse_voc_file_run w _ voc_conf tags tree) by (rewrite Hfs; assumption).
    rewrite Hrows.
    rewrite (IH rss') by (try reflexivity; assumption).
    simpl. rewrite <- app_assoc. f_equal.
    unfold logs, log. simpl. f_equal. now rewrite <- !app_assoc.
Qed.

Lemma parse_voc_folder_miss w folder_path voc_conf cache_file entries rss :
  fs w !! folder_path = Some (Dir entries) ->
  fs w !! cache_path_of cache_file = None ->
  for_each (fun f => fst (parse_voc_file (PosixPath.join folder_path f) voc_conf w))
           (List.filter is_annotation entries) = Ok rss ->
  parse_voc_folder folder_path voc_conf cache_file w =
  let w1 := logs (miss_ops folder_path voc_conf cache_file
                           (List.filter is_annotation entries)) w in
  match concat rss with
  | [] =>
      (Raise (ValueError (no_labels_found
                            (PosixPath.abspath (cwd w) folder_path))), w1)
  | _ :: _ =>
      let (r, w2) := adjust_frame (concat rss) cache_file w1 in
      (Py.bind r (fun frame => Ok (computed frame)), w2)
  end.
Proof.
  intros Hdir Hmiss Hall.
  unfold parse_voc_folder, visualization_wrapper, parse_voc_folder_def,
      IO.bind, os_path_exists, os_listdir, IO.assert.
  simpl. rewrite bool_decide_eq_true_2 by (rewrite Hdir; eauto).
  unfold IO.ret. simpl.
  rewrite bool_decide_eq_false_2 by (rewrite Hmiss; intros [? ?]; discriminate).
  simpl. rewrite Hdir.
  rewrite (collect_labels_ok folder_path voc_conf w entries rss) by (auto).
  simpl.
  replace (logs _ (log _ (log _ (log _ w)))) with
    (logs (miss_ops folder_path voc_conf cache_file
                    (List.filter is_annotation entries)) w).
  2:{ unfold logs, log, miss_ops. simpl. f_equal. now rewrite <- !app_assoc. }
  destruct (concat rss) as [|r0 frame]; simpl.
  - reflexivity.
  - unfold IO.ret. simpl.
    destruct (adjust_frame (r0 :: frame) cache_file _) as [[out|e] w2];
      reflexivity.
Qed.

(** C9.  On a cache miss over an existing folder, the entries selected
    are exactly those of the listing whose names end with [.xml], in the
    order of the listing; [parse_voc_file] is run on each of them in that
    order and on nothing else, and the rows they return, concatenated in
    that order, are the collection the rest of the function works on. *)
Theorem parse_voc_folder_collects w folder_path voc_conf cache_file entries rss :
  fs w !! folder_path = Some (Dir entries) ->
  fs w !! cache_path_of cache_file = None ->
  for_each (fun f => fst (parse_voc_file (PosixPath.join folder_path f) voc_conf w))
           (List.filter (fun f => PosixPath.endswith f annotation_suffix) entries)
  = Ok rss ->
  exists w1,
    fs w1 = fs w /\
    trace w1 =
      (trace w
       ++ [op_exists folder_path; op_exists (cache_path_of cache_file);
           op_listdir folder_path]
       ++ flat_map (fun f => file_ops voc_conf (PosixPath.join folder_path f))
            (List.filter (fun f => PosixPath.endswith f annotation_suffix) entries))%list /\
    parse_voc_folder folder_path voc_conf cache_file w =
    match concat rss with
    | [] =>
        (Raise (ValueError (no_labels_found
                              (PosixPath.abspath (cwd w) folder_path))), w1)
    | _ :: _ =>
        let (r, w2) := adjust_frame (concat rss) cache_file w1 in
        (Py.bind r (fun frame => Ok (computed frame)), w2)
    end.
Proof.
  intros Hdir Hmiss Hall.
  exists (logs (miss_ops folder_path voc_conf cache_file
                         (List.filter is_annotation entries)) w).
  split; [reflexivity|]. split; [reflexivity|].
  now apply parse_voc_folder_miss with (entries := entries).
Qed.

Lemma parse_voc_folder_collects_witness :
  exists w1,
    fs w1 = fs Sample.world /\
    trace w1 =
      (trace Sample.world
       ++ [op_exists "data"; op_exists (cache_path_of "labels.csv");
           op_listdir "data"]
       ++ flat_map (fun f => file_ops "voc_conf.json" (PosixPath.join "data" f))
            (List.filter (fun f => PosixPath.endswith f annotation_suffix)
                         ["a.xml"; "notes.txt"; "b.xml"]))%list /\
    parse_voc_folder "data" "voc_conf.json" "labels.csv" Sample.world =
    match concat [map (expected_row Sample.voc_tags Sample.cat_doc)
                      (object_items Sample.voc_tags Sample.cat_doc);
                  map (expected_row Sample.voc_tags Sample.dog_cat_doc)
                      (object_items Sample.voc_tags Sample.dog_cat_doc)] with
    | [] =>
        (Raise (ValueError (no_labels_found
                              (PosixPath.abspath (cwd Sample.world) "data"))), w1)
    | _ :: _ =>
        let (r, w2) :=
          adjust_frame
            (concat [map (expected_row Sample.voc_tags Sample.cat_doc)
                         (object_items Sample.voc_tags Sample.cat_doc);
                     map (expected_row Sample.voc_tags Sample.dog_cat_doc)
                         (object_items Sample.voc_tags Sample.dog_cat_doc)])
            "labels.csv" w1 in
        (Py.bind r (fun frame => Ok (computed frame)), w2)
    end.
Proof.
  apply (parse_voc_folder_collects Sample.world "data" "voc_conf.json" "labels.csv"
           ["a.xml"; "notes.txt"; "b.xml"]); reflexivity.
Defined.

(** The sample folder, end to end: [notes.txt] is passed over, the rows
    of [a.xml] come before those of [b.xml]. *)
Example parse_voc_folder_data :
  option_map
    (fun t => match t with
              | computed frame =>
                  map (fun r => (Image_Path (labels r), Object_Name (labels r),
                                 Object_ID r)) frame
              | read_csv _ => []
              end)
    (match fst (parse_voc_folder "data" "voc_conf.json" "labels.csv" Sample.world) with
     | Ok t => Some t
     | Raise _ => None
     end) =
  Some [(Some "img1.jpg", Some "cat", Some 1);
        (Some "img2.jpg", Some "dog", Some 2);
        (Some "img2.jpg", Some "cat", Some 1)].
Proof. vm_compute. reflexivity. Qed.

(** ** The empty collection *)

(** A folder without object entries does not make aggregation fail when
    an artifact is cached under the key: the artifact is returned, be it
    the stale table of another state of the folder or a table without
    rows. *)
Lemma parse_voc_folder_empty_folder_cached :
  for_each (fun f => fst (parse_voc_file (PosixPath.join "empty" f) "voc_conf.json"
                                         Sample.cached_world))
           (List.filter (fun f => PosixPath.endswith f annotation_suffix)
                        ["readme.md"; "d.xml"]) = Ok [[]] /\
  fst (parse_voc_folder "empty" "voc_conf.json" "labels.csv" Sample.cached_world) =
    Ok (read_csv (csv_doc (normalized (Sample.dog_cat_rows ++ Sample.cat_rows)))) /\
  fst (parse_voc_folder "empty" "voc_conf.json" "labels.csv" Sample.empty_cache_world) =
    Ok (read_csv (csv_doc [])).
Proof. repeat split; vm_compute; reflexivity. Qed.

(** C7, as the code has it.  On a cache miss over an existing folder
    whose selected files return no row at all (there is none, or each has
    zero object entries), aggregation raises the error whose message
    carries the absolute path of the folder; nothing is written. *)
Theorem parse_voc_folder_no_labels w folder_path voc_conf cache_file entries rss :
  fs w !! folder_path = Some (Dir entries) ->
  fs w !! cache_path_of cache_file = None ->
  for_each (fun f => fst (parse_voc_file (PosixPath.join folder_path f) voc_conf w))
           (List.filter (fun f => PosixPath.endswith f annotation_suffix) entries)
  = Ok rss ->
  concat rss = [] ->
  fst (parse_voc_folder folder_path voc_conf cache_file w) =
    Raise (ValueError (no_labels_found (PosixPath.abspath (cwd w) folder_path))) /\
  fs (snd (parse_voc_folder folder_path voc_conf cache_file w)) = fs w.
Proof.
  intros Hdir Hmiss Hall Hempty.
  rewrite (parse_voc_folder_miss w folder_path voc_conf cache_file entries rss)
    by assumption.
  simpl. rewrite Hempty. split; reflexivity.
Qed.

Lemma parse_voc_folder_no_labels_witness :
  fst (parse_voc_folder "empty" "voc_conf.json" "labels.csv" Sample.world) =
    Raise (ValueError (no_labels_found
                         (PosixPath.abspath (cwd Sample.world) "empty"))) /\
  fs (snd (parse_voc_folder "empty" "voc_conf.json" "labels.csv" Sample.world)) =
    fs Sample.world.
Proof.
  apply (parse_voc_folder_no_labels Sample.world "empty" "voc_conf.json"
           "labels.csv" ["readme.md"; "d.xml"] [[]]); reflexivity.
Defined.

(** The message for the sample folder, the working directory being
    [/home/user/yolo/Helpers]. *)
Example parse_voc_folder_empty_message :
  fst (parse_voc_folder "empty" "voc_conf.json" "labels.csv" Sample.world) =
  Raise (ValueError "No labels were found in /home/user/yolo/Helpers/empty").
Proof. vm_compute. reflexivity. Qed.

(** ** The cache *)

(** The artifact exists but the folder does not: the assertion on the
    folder comes first and the artifact is not returned. *)
Lemma parse_voc_folder_missing_folder_cached :
  fs Sample.cached_world !! cache_path_of "labels.csv" =
    Some (File (csv_doc (normalized (Sample.dog_cat_rows ++ Sample.cat_rows)))) /\
  fs Sample.cached_world !! "nowhere" = None /\
  fst (parse_voc_folder "nowhere" "voc_conf.json" "labels.csv" Sample.cached_world) =
    Raise AssertionError.
Proof. repeat split; vm_compute; reflexivity. Qed.

Lemma parse_voc_folder_hit w folder_path voc_conf cache_file node data :
  fs w !! folder_path = Some node ->
  fs w !! cache_path_of cache_file = Some (File data) ->
  parse_voc_folder folder_path voc_conf cache_file w =
  (Ok (read_csv data), logs (hit_ops folder_path cache_file) w).
Proof.
  intros Hdir Hcache.
  unfold parse_voc_folder, visualization_wrapper, parse_voc_folder_def,
    IO.bind, os_path_exists, IO.assert, pd_read_csv.
  simpl. rewrite bool_decide_eq_true_2 by (rewrite Hdir; eauto).
  unfold IO.ret. simpl.
  rewrite bool_decide_eq_true_2 by (rewrite Hcache; eauto).
  simpl. rewrite Hcache. f_equal.
  unfold logs, log, hit_ops. simpl. f_equal. now rewrite <- !app_assoc.
Qed.

(** C4, as the code has it.  For a folder path that exists and a cache
    key whose artifact exists, aggregation returns what [pd.read_csv]
    makes of the artifact; it checks the two paths and reads the artifact,
    and does nothing else: no listing, no extraction, no normalisation, no
    write.  A second call therefore returns the same table in the same
    way. *)
Theorem parse_voc_folder_cache_hit w folder_path voc_conf cache_file node data :
  fs w !! folder_path = Some node ->
  fs w !! cache_path_of cache_file = Some (File data) ->
  parse_voc_folder folder_path voc_conf cache_file w =
    (Ok (read_csv data), logs (hit_ops folder_path cache_file) w) /\
  fs (logs (hit_ops folder_path cache_file) w) = fs w /\
  parse_voc_folder folder_path voc_conf cache_file
                   (logs (hit_ops folder_path cache_file) w) =
    (Ok (read_csv data),
     logs (hit_ops folder_path cache_file ++ hit_ops folder_path cache_file) w).
Proof.
  intros Hdir Hcache.
  split; [now apply parse_voc_folder_hit with (node := node)|].
  split; [reflexivity|].
  rewrite (parse_voc_folder_hit _ _ _ _ node data) by assumption.
  now rewrite logs_logs.
Qed.

Lemma parse_voc_folder_cache_hit_witness :
  parse_voc_folder "data" "voc_conf.json" "labels.csv" Sample.cached_world =
    (Ok (read_csv (csv_doc (normalized (Sample.dog_cat_rows ++ Sample.cat_rows)))),
     logs (hit_ops "data" "labels.csv") Sample.cached_world) /\
  fs (logs (hit_ops "data" "labels.csv") Sample.cached_world) =
    fs Sample.cached_world /\
  parse_voc_folder "data" "voc_conf.json" "labels.csv"
                   (logs (hit_ops "data" "labels.csv") Sample.cached_world) =
    (Ok (read_csv (csv_doc (normalized (Sample.dog_cat_rows ++ Sample.cat_rows)))),
     logs (hit_ops "data" "labels.csv" ++ hit_ops "data" "labels.csv")
          Sample.cached_world).
Proof.
  apply (parse_voc_folder_cache_hit Sample.cached_world "data" "voc_conf.json"
           "labels.csv" (Dir ["a.xml"; "notes.txt"; "b.xml"])); reflexivity.
Defined.

(** After a call that missed the cache and succeeded, the next call with
    the same key hits it: it returns what [pd.read_csv] makes of the
    artifact that the first call wrote from its frame. *)
Lemma parse_voc_folder_second_call w folder_path voc_conf cache_file frame w' node :
  fs w !! folder_path = Some node ->
  fs w !! cache_path_of cache_file = None ->
  folder_path <> cache_path_of cache_file ->
  parse_voc_folder folder_path voc_conf cache_file w = (Ok (computed frame), w') ->
  parse_voc_folder folder_path voc_conf cache_file w' =
    (Ok (read_csv (csv_doc frame)), logs (hit_ops folder_path cache_file) w').
Proof.
  intros Hdir Hmiss Hne Hrun.
  assert (Hw' : fs w' = <[cache_path_of cache_file := File (csv_doc frame)]> (fs w)).
  { revert Hrun.
    unfold parse_voc_folder, visualization_wrapper, parse_voc_folder_def,
      IO.bind, os_path_exists, os_listdir, IO.assert.
    simpl. rewrite bool_decide_eq_true_2 by (rewrite Hdir; eauto).
    unfold IO.ret. simpl.
    rewrite bool_decide_eq_false_2 by (rewrite Hmiss; intros [? ?]; discriminate).
    simpl.
    destruct (fs w !! folder_path) as [[entries|]|]; try discriminate.
    match goal with
    | |- context [collect_labels ?a ?b ?c ?d ?e] =>
        destruct (collect_labels a b c d e) as [[image_data|] w1] eqn:Hcollect
    end; try discriminate.
    assert (Hfs1 : fs w1 = fs w).
    { clear -Hcollect.
      remember (log (op_listdir folder_path)
                    (log (op_exists (cache_path_of cache_file))
                         (log (op_exists folder_path) w))) as w0 eqn:Hw0.
      assert (Hfs0 : fs w0 = fs w) by now subst.
      clear Hw0. remember [] as acc eqn:Hacc. clear Hacc.
      revert acc w0 Hfs0 Hcollect.
      induction entries as [|file_name rest IH]; simpl; intros acc w0 Hfs0.
      - intros [= _ <-]. assumption.
      - destruct (PosixPath.endswith file_name annotation_suffix);
          [|now apply IH].
        unfold IO.bind.
        destruct (parse_voc_file _ voc_conf w0) as [[rows|] w2] eqn:Hfile;
          try discriminate.
        apply IH. rewrite <- Hfs0.
        revert Hfile.
        unfold parse_voc_file, IO.bind, os_path_exists, json_load,
          ElementTree_parse, IO.assert, IO.lift, IO.ret, IO.raise. simpl.
        destruct (bool_decide _); simpl; [|discriminate].
        destruct (fs w0 !! voc_conf) as [[|[| tags | |]]|]; simpl;
          try discriminate.
        destruct (fs w0 !! _) as [[|[tree| | |]]|]; simpl; try discriminate.
        now intros [= _ <-]. }
    destruct image_data as [|r0 image_data]; [discriminate|].
    destruct (adjust_frame (r0 :: image_data) cache_file w1)
      as [[out|] w2] eqn:Hadj; try discriminate.
    intros [= <- <-].
    apply adjust_frame_inv in Hadj as (_ & -> & ->). simpl. now rewrite Hfs1. }
  apply (parse_voc_folder_hit w' folder_path voc_conf cache_file node).
  - rewrite Hw', lookup_insert_ne by congruence. assumption.
  - rewrite Hw'. apply lookup_insert_eq.
Qed.

(** * Further properties *)

(** ** parse_voc_file: effects and failures *)

Lemma parse_voc_file_cases w file_path voc_conf :
  exists n,
    (n <= 3)%nat /\
    snd (parse_voc_file file_path voc_conf w) =
    logs (take n (file_ops voc_conf file_path)) w /\
    (n < 3 -> Py.is_ok (fst (parse_voc_file file_path voc_conf w)) = false)%nat.
Proof.
  unfold parse_voc_file, IO.bind, os_path_exists, json_load, ElementTree_parse,
    IO.assert, IO.lift, IO.ret, IO.raise. simpl.
  destruct (bool_decide (is_Some (fs w !! file_path))); simpl.
  - destruct (fs w !! voc_conf) as [[|[| tags | |]]|]; simpl;
      try (exists 2%nat; repeat split; [lia|]; unfold logs, log; simpl;
           now rewrite <- !app_assoc).
    destruct (fs w !! file_path) as [[|[tree| | |]]|]; simpl;
      exists 3%nat; repeat split; try lia; unfold logs, log; simpl;
        now rewrite <- !app_assoc.
  - exists 1%nat. repeat split; lia.
Qed.

(** X1.  Whatever its outcome, extraction from a file leaves the file
    tree and the working directory as they were; all it adds to the log
    is, in this order, the existence test of the file, the opening of the
    configuration and the parse of the file, stopping where it fails. *)
Theorem parse_voc_file_reads_only w file_path voc_conf :
  fs (snd (parse_voc_file file_path voc_conf w)) = fs w /\
  cwd (snd (parse_voc_file file_path voc_conf w)) = cwd w /\
  exists n,
    trace (snd (parse_voc_file file_path voc_conf w)) =
    (trace w ++ take n (file_ops voc_conf file_path))%list.
Proof.
  destruct (parse_voc_file_cases w file_path voc_conf) as (n & _ & -> & _).
  repeat split. now exists n.
Qed.


Example parse_voc_file_garbled :
  parse_voc_file "garbled.xml" "voc_conf.json" Fixture.mixed_world =
  (Raise (ParseError "garbled.xml"),
   logs (file_ops "voc_conf.json" "garbled.xml") Fixture.mixed_world)
  /\ parse_voc_file "garbled.xml" "nowhere.json" Fixture.mixed_world =
     (Raise (FileNotFoundError "nowhere.json"),
      logs [op_exists "garbled.xml"; op_open "nowhere.json"] Fixture.mixed_world).
Proof. split; vm_compute; reflexivity. Qed.

(** ** The walk over one document: order of the lookups *)

Lemma for_each_first_raise {A B} (f : A -> Result B) pre x post e :
  Forall (fun y => Py.is_ok (f y) = true) pre ->
  f x = Raise e ->
  for_each f (pre ++ x :: post) = Raise e.
Proof.
  induction 1 as [|y pre Hy _ IH]; simpl; intros Hx.
  - now rewrite Hx.
  - destruct (f y); [|discriminate]. simpl. now rewrite IH.
Qed.

(** X3.  The error of an incomplete document names the first lookup that
    fails, in the order of the code: the path, the size container, the
    width, the height, and then, object by object in document order, the
    fields of the first object that lacks one; what comes after the first
    failure plays no part. *)
Theorem tree_rows_first_failure tags file_path tree :
  (find tree (Tags.Path (Tags.Tree tags)) = None ->
   tree_rows tags file_path tree =
   Raise (ValueError (could_not_find (Tags.Path (Tags.Tree tags)) file_path))) /\
  (find tree (Tags.Path (Tags.Tree tags)) <> None ->
   find tree (Tags.Size_Tag (Tags.Size tags)) = None ->
   tree_rows tags file_path tree =
   Raise (ValueError (could_not_find (Tags.Size_Tag (Tags.Size tags)) file_path))) /\
  (forall size_item,
     find tree (Tags.Path (Tags.Tree tags)) <> None ->
     find tree (Tags.Size_Tag (Tags.Size tags)) = Some size_item ->
     find size_item (Tags.Width (Tags.Size tags)) = None ->
     tree_rows tags file_path tree =
     Raise (ValueError (could_not_find (Tags.Width (Tags.Size tags)) file_path))) /\
  (forall size_item,
     find tree (Tags.Path (Tags.Tree tags)) <> None ->
     find tree (Tags.Size_Tag (Tags.Size tags)) = Some size_item ->
     find size_item (Tags.Width (Tags.Size tags)) <> None ->
     find size_item (Tags.Height (Tags.Size tags)) = None ->
     tree_rows tags file_path tree =
     Raise (ValueError (could_not_find (Tags.Height (Tags.Size tags)) file_path))) /\
  (forall before item after,
     header_complete tags tree = true ->
     object_items tags tree = (before ++ item :: after)%list ->
     forallb (object_complete tags) before = true ->
     object_complete tags item = false ->
     exists tag,
       Missing tags tree tag /\
       object_row tags file_path
                  (child_text tree (Tags.Path (Tags.Tree tags)))
                  (grandchild_text tree (Tags.Size_Tag (Tags.Size tags))
                                   (Tags.Width (Tags.Size tags)))
                  (grandchild_text tree (Tags.Size_Tag (Tags.Size tags))
                                   (Tags.Height (Tags.Size tags)))
                  item =
       Raise (ValueError (could_not_find tag file_path)) /\
       tree_rows tags file_path tree =
       Raise (ValueError (could_not_find tag file_path))).
Proof.
  unfold tree_rows. rewrite ?get_tree_item_one, ?get_tree_item_all.
  split; [|split; [|split; [|split]]].
  - now intros ->.
  - intros Hp ->. destruct (find tree (Tags.Path _)); [reflexivity | congruence].
  - intros size_item Hp -> Hw.
    destruct (find tree (Tags.Path _)); [|congruence]. simpl.
    rewrite ?get_tree_item_one. now rewrite Hw.
  - intros size_item Hp -> Hw Hh.
    destruct (find tree (Tags.Path _)); [|congruence]. simpl.
    rewrite ?get_tree_item_one.
    destruct (find size_item (Tags.Width _)); [|congruence]. simpl.
    rewrite ?get_tree_item_one. now rewrite Hh.
  - intros before item after Hhdr Hitems Hbefore Hitem.
    unfold header_complete, present in Hhdr.
    unfold child_text, grandchild_text, child_text.
    destruct (find tree (Tags.Path _)) as [path_item|]; [|discriminate].
    destruct (find tree (Tags.Size_Tag _)) as [size_item|]; [|discriminate].
    simpl in *. rewrite ?get_tree_item_one.
    destruct (find size_item (Tags.Width _)) as [width_item|]; [|discriminate].
    simpl in *. rewrite ?get_tree_item_one.
    destruct (find size_item (Tags.Height _)) as [height_item|]; [|discriminate].
    simpl. unfold object_items in Hitems. rewrite Hitems.
    assert (Hin : In item (object_items tags tree)).
    { unfold object_items. rewrite Hitems. apply in_or_app. right. now left. }
    destruct (object_row_incomplete tags file_path tree (text path_item)
                (text width_item) (text height_item) item Hin Hitem)
      as (tag & Hm & Hr).
    exists tag. split; [assumption|]. split; [assumption|].
    apply for_each_first_raise; [|assumption].
    apply List.Forall_forall. intros y Hy.
    rewrite forallb_forall in Hbefore.
    now rewrite (object_row_complete tags file_path tree) by auto.
Qed.

(** A document that lacks both its path and its width is reported for the
    path, which is looked up first. *)
Example tree_rows_path_before_width :
  tree_rows Sample.voc_tags "x.xml"
            (Elem "annotation" None
                  [Elem "size" None [Sample.leaf "height" "200"]]) =
  Raise (ValueError (could_not_find "path" "x.xml")).
Proof. reflexivity. Qed.

(** ** Elements the tag mapping does not mention *)

Lemma find_skip {A} (p : A -> bool) l1 x l2 :
  p x = false -> List.find p (l1 ++ x :: l2) = List.find p (l1 ++ l2).
Proof.
  intros Hx. induction l1 as [|y l1 IH]; simpl; [now rewrite Hx|].
  now destruct (p y).
Qed.

Lemma filter_skip {A} (p : A -> bool) l1 x l2 :
  p x = false -> List.filter p (l1 ++ x :: l2) = List.filter p (l1 ++ l2).
Proof.
  intros Hx. rewrite !List.filter_app. simpl. now rewrite Hx.
Qed.

(** X4.  A child of the root whose tag is none of the three that are
    looked up there (path, size container, object) changes nothing,
    wherever it stands among the children: the document gives the same
    rows, or the same error, with or without it. *)
Theorem tree_rows_ignores_other_elements tags file_path tag text before x after :
  ~ In (ElementTree.tag x) (root_tags tags) ->
  tree_rows tags file_path (Elem tag text (before ++ x :: after)) =
  tree_rows tags file_path (Elem tag text (before ++ after)).
Proof.
  intros Hx.
  assert (Hno : forall t, In t (root_tags tags) -> has_tag t x = false).
  { intros t Ht. unfold has_tag. apply String.eqb_neq. intros Heq.
    apply Hx. now rewrite Heq. }
  unfold tree_rows. rewrite ?get_tree_item_one, ?get_tree_item_all.
  unfold find, findall. simpl children.
  rewrite !find_skip by (apply Hno; simpl; auto).
  destruct (List.find _ (before ++ after)) as [path_item|]; [|reflexivity].
  simpl.
  destruct (List.find (has_tag (Tags.Size_Tag _)) (before ++ after))
    as [size_item|]; [|reflexivity].
  simpl. rewrite ?get_tree_item_one.
  destruct (ElementTree.find size_item (Tags.Width _)); [|reflexivity].
  simpl. rewrite ?get_tree_item_one.
  destruct (ElementTree.find size_item (Tags.Height _)); [|reflexivity].
  simpl. rewrite ?get_tree_item_all. unfold findall. simpl children.
  now rewrite filter_skip by (apply Hno; simpl; auto).
Qed.

Lemma tree_rows_ignores_other_elements_witness :
  tree_rows Sample.voc_tags "data/a.xml"
    (Elem "annotation" None
          ([Sample.leaf "path" "img1.jpg"]
           ++ Fixture.extra_node
           :: [Elem "size" None [Sample.leaf "width" "100"; Sample.leaf "height" "200"];
               Sample.object_node "cat" "10" "20" "50" "120"])) =
  tree_rows Sample.voc_tags "data/a.xml"
    (Elem "annotation" None
          ([Sample.leaf "path" "img1.jpg"]
           ++ [Elem "size" None [Sample.leaf "width" "100"; Sample.leaf "height" "200"];
               Sample.object_node "cat" "10" "20" "50" "120"])).
Proof.
  apply (tree_rows_ignores_other_elements Sample.voc_tags "data/a.xml"
           "annotation" None [Sample.leaf "path" "img1.jpg"] Fixture.extra_node).
  simpl. intros [H|[H|[H|[]]]]; discriminate H.
Defined.

(** ** Normalisation: which error, and what is written *)

Lemma for_each_cell_unparsable column s :
  first_unparsable column = Some s ->
  for_each cell_to_float column = Raise (ValueError (could_not_convert s)).
Proof.
  induction column as [|[t|] column IH]; simpl; [discriminate| |].
  - destruct (PyFloat.float_of_str t); simpl.
    + intros H. now rewrite IH.
    + now intros [= ->].
  - intros H. now rewrite IH.
Qed.

Lemma for_each_cell_parsable column :
  first_unparsable column = None ->
  exists floats,
    for_each cell_to_float column = Ok floats /\
    forallb Float64.is_finite floats = forallb coercible column.
Proof.
  induction column as [|[t|] column IH]; simpl.
  - exists []. auto.
  - unfold coercible at 1. simpl.
    destruct (PyFloat.float_of_str t) as [f|]; [|discriminate].
    intros H. destruct (IH H) as (floats & -> & Hfin). simpl.
    exists (f :: floats). simpl. now rewrite Hfin.
  - intros H. destruct (IH H) as (floats & -> & Hfin). simpl.
    exists (S754_nan :: floats). auto.
Qed.

(** X5.  The conversion of a column reports the first text that is not a
    number, even when a cell before it is empty or reads as an infinity
    or NaN, for the whole column goes through [float] before any cast to
    integer; a column of numbers is refused for its non-finite values only
    then, with the message of that cast; otherwise it is converted cell by
    cell. *)
Theorem astype_float_int_outcome column :
  (forall s,
     first_unparsable column = Some s ->
     astype_float_int column = Raise (ValueError (could_not_convert s))) /\
  (first_unparsable column = None ->
   forallb coercible column = false ->
   astype_float_int column = Raise (ValueError non_finite_values)) /\
  (first_unparsable column = None ->
   forallb coercible column = true ->
   astype_float_int column = Ok (map coerce column)).
Proof.
  unfold astype_float_int. split; [|split].
  - intros s Hs. now rewrite (for_each_cell_unparsable column s).
  - intros Hp Hc. destruct (for_each_cell_parsable column Hp) as (floats & -> & Hfin).
    simpl. unfold floats_to_int. now rewrite Hfin, Hc.
  - intros _ Hc. now apply astype_float_int_ok.
Qed.

Example astype_float_int_inf_then_text :
  astype_float_int Fixture.inf_then_text =
  Raise (ValueError "could not convert string to float: 'wide'").
Proof. vm_compute. reflexivity. Qed.

(** X6.  Normalisation converts column by column, so its error is the one
    of the first column, in the order image width, image height, x_min,
    y_min, x_max, y_max, that fails to convert, whichever rows are
    involved; the world is left untouched. *)
Theorem adjust_frame_first_failing_column frame cache_file w before column after e :
  geometry_columns frame = (before ++ column :: after)%list ->
  Forall (fun c => forallb coercible c = true) before ->
  astype_float_int column = Raise e ->
  adjust_frame frame cache_file w = (Raise e, w).
Proof.
  intros Hcols Hbefore Hraise. unfold geometry_columns in Hcols.
  unfold adjust_frame, IO.bind, IO.lift.
  repeat (destruct before as [|? before]; simpl in Hcols;
          [ injection Hcols as <- _ | injection Hcols as <- Hcols ];
          [ repeat match goal with
              | H : Forall _ (_ :: _) |- _ => inversion H; subst; clear H
              end;
            rewrite ?astype_float_int_ok by assumption;
            now rewrite Hraise | ]).
  destruct before; discriminate.
Qed.

Lemma adjust_frame_first_failing_column_witness :
  adjust_frame Fixture.late_width_rows "labels.csv" Sample.world =
  (Raise (ValueError (could_not_convert "wide")), Sample.world).
Proof.
  apply (adjust_frame_first_failing_column Fixture.late_width_rows "labels.csv"
           Sample.world [] (map Image_Width Fixture.late_width_rows)
           [map Image_Height Fixture.late_width_rows;
            map X_min Fixture.late_width_rows; map Y_min Fixture.late_width_rows;
            map X_max Fixture.late_width_rows; map Y_max Fixture.late_width_rows]).
  - reflexivity.
  - constructor.
  - vm_compute. reflexivity.
Defined.

(** X7.  A successful normalisation writes the very table it returns at
    [../Caches/<cache_file>], replacing whatever was there, touches no
    other path, and logs the write and then the printing of the name
    counts; a failed one leaves the world exactly as it was. *)
Theorem adjust_frame_effects frame cache_file w :
  match adjust_frame frame cache_file w with
  | (Ok out, w') =>
      fs w' = <[cache_path_of cache_file := File (csv_doc out)]> (fs w) /\
      cwd w' = cwd w /\
      trace w' =
        (trace w ++ [op_to_csv (cache_path_of cache_file);
                     op_print_value_counts (map Object_Name frame)])%list
  | (Raise _, w') => w' = w
  end.
Proof.
  destruct (forallb row_coercible frame) eqn:Hc.
  - rewrite adjust_frame_ok by assumption. simpl.
    repeat split. now rewrite <- app_assoc.
  - destruct (adjust_frame_raise frame cache_file w Hc) as (msg & ->). reflexivity.
Qed.

(** ** The sign of the ratios *)

Lemma binary_round_aux_not_negative mx ex lx :
  is_negative (binary_round_aux Float64.prec Float64.emax false mx ex lx) = false.
Proof.
  unfold binary_round_aux.
  destruct (shr_fexp _ _ mx ex lx) as [mrs' e'].
  destruct (shr_fexp _ _ _ e' loc_Exact) as [mrs'' e''].
  destruct (shr_m mrs''); try reflexivity.
  now destruct (Z.leb _ _).
Qed.

Lemma of_Z_not_negative z : 0 <= z -> is_negative (Float64.of_Z z) = false.
Proof.
  intros Hz. unfold Float64.of_Z, binary_normalize.
  destruct z as [|m|m]; [reflexivity| |lia].
  unfold binary_round. destruct (shl_align _ _ _) as [mz ez].
  apply binary_round_aux_not_negative.
Qed.

Lemma div_not_negative x y :
  is_negative x = false -> is_negative y = false ->
  is_negative (Float64.div x y) = false.
Proof.
  unfold Float64.div.
  destruct x as [sx|sx| |sx mx ex], y as [sy|sy| |sy my ey]; simpl;
    intros Hx Hy; subst; try reflexivity.
  destruct (SFdiv_core_binary _ _ _ _ _ _) as [[mz ez] lz].
  apply binary_round_aux_not_negative.
Qed.

Lemma to_int64_in_range f : Int64.in_range (Float64.to_int64 f) = true.
Proof.
  unfold Float64.to_int64.
  destruct (Int64.in_range (Float64.trunc f)) eqn:H; [assumption | reflexivity].
Qed.

Lemma coerce_in_range c : Int64.in_range (coerce c) = true.
Proof.
  unfold coerce. destruct (cell_to_float c); [apply to_int64_in_range | reflexivity].
Qed.

Lemma int64_sub_exact a b :
  0 <= b <= a -> Int64.in_range a = true -> Int64.sub a b = a - b.
Proof.
  unfold Int64.in_range, Int64.sub, Int64.wrap, Int64.min_value, Int64.max_value.
  intros Hab Ha. apply andb_prop in Ha as [_ Hmax]. apply Z.leb_le in Hmax.
  rewrite Z.mod_small; lia.
Qed.

(** X8.  In the table that normalisation returns, a row whose box is not
    inverted and starts at a non-negative coordinate, in an image of
    non-negative dimension, never has a negative ratio: the relative
    width (height) is a zero, a positive number, plus infinity or NaN. *)
Theorem adjust_frame_ratios_not_negative frame cache_file w out w' r :
  adjust_frame frame cache_file w = (Ok out, w') ->
  In r out ->
  (0 <= X_min (labels r) <= X_max (labels r) ->
   0 <= Image_Width (labels r) ->
   is_negative (Relative_Width r) = false) /\
  (0 <= Y_min (labels r) <= Y_max (labels r) ->
   0 <= Image_Height (labels r) ->
   is_negative (Relative_Height r) = false).
Proof.
  intros Hrun Hin.
  apply adjust_frame_inv in Hrun as (_ & -> & _).
  apply in_normalized in Hin as (raw & _ & ->). simpl.
  unfold relative_width, relative_height. simpl.
  split; intros Hbox Hdim; apply div_not_negative;
    try (apply of_Z_not_negative; try assumption;
         rewrite int64_sub_exact by (auto using coerce_in_range); lia).
Qed.

Lemma adjust_frame_ratios_not_negative_witness :
  (0 <= X_min (labels Sample.cat_adjusted) <= X_max (labels Sample.cat_adjusted) ->
   0 <= Image_Width (labels Sample.cat_adjusted) ->
   is_negative (Relative_Width Sample.cat_adjusted) = false) /\
  (0 <= Y_min (labels Sample.cat_adjusted) <= Y_max (labels Sample.cat_adjusted) ->
   0 <= Image_Height (labels Sample.cat_adjusted) ->
   is_negative (Relative_Height Sample.cat_adjusted) = false).
Proof.
  apply (adjust_frame_ratios_not_negative Sample.cat_rows "labels.csv" Sample.world
           [Sample.cat_adjusted]
           (after_adjust Sample.cat_rows "labels.csv" Sample.world)
           Sample.cat_adjusted).
  - vm_compute. reflexivity.
  - left. reflexivity.
Defined.

(** An inverted box gives a negative ratio, which is not an error. *)
Example adjust_frame_inverted_box :
  option_map (map Relative_Width)
    (match fst (adjust_frame
                  [Sample.row "img9.jpg" "cat" "100" "200" "50" "20" "10" "120"]
                  "labels.csv" Sample.world) with
     | Ok out => Some out
     | Raise _ => None
     end) =
  Some [S754_finite true 7205759403792794 (-54)].
Proof. vm_compute. reflexivity. Qed.

(** ** Aggregation: edge cases, failures and effects *)

Lemma parse_voc_file_same_tree w w0 file_path voc_conf :
  fs w = fs w0 ->
  fst (parse_voc_file file_path voc_conf w) =
  fst (parse_voc_file file_path voc_conf w0).
Proof.
  destruct w as [files dir ops], w0 as [files0 dir0 ops0]. simpl.
  intros ->.
  unfold parse_voc_file, IO.bind, os_path_exists, json_load, ElementTree_parse,
    IO.assert, IO.lift, IO.ret, IO.raise. simpl.
  destruct (bool_decide (is_Some (files0 !! file_path))); simpl; [|reflexivity].
  destruct (files0 !! voc_conf) as [[|[| tags | |]]|]; simpl; try reflexivity.
  destruct (files0 !! file_path) as [[|[tree| | |]]|]; reflexivity.
Qed.

Lemma parse_voc_file_world w file_path voc_conf :
  fs (snd (parse_voc_file file_path voc_conf w)) = fs w /\
  cwd (snd (parse_voc_file file_path voc_conf w)) = cwd w.
Proof.
  destruct (parse_voc_file_cases w file_path voc_conf) as (n & _ & -> & _).
  split; reflexivity.
Qed.

Lemma collect_labels_world folder_path voc_conf file_names :
  forall image_data w,
    fs (snd (collect_labels folder_path voc_conf file_names image_data w)) = fs w /\
    cwd (snd (collect_labels folder_path voc_conf file_names image_data w)) = cwd w.
Proof.
  induction file_names as [|file_name rest IH]; simpl; intros image_data w.
  - split; reflexivity.
  - destruct (PosixPath.endswith file_name annotation_suffix); [|apply IH].
    unfold IO.bind.
    pose proof (parse_voc_file_world w (PosixPath.join folder_path file_name)
                  voc_conf) as [Hfs Hcwd].
    destruct (parse_voc_file _ voc_conf w) as [[rows|e] w1]; simpl in *.
    + destruct (IH (image_data ++ rows)%list w1) as [Hfs' Hcwd'].
      split; congruence.
    + split; assumption.
Qed.

(** X9.  The folder path is checked before anything else: a path that
    does not exist fails the assertion, with or without a cache artifact,
    after a single existence test; a path that exists but is a plain file
    passes the assertion and, on a cache miss, fails at the listing. *)
Theorem parse_voc_folder_bad_folder w folder_path voc_conf cache_file :
  (fs w !! folder_path = None ->
   parse_voc_folder folder_path voc_conf cache_file w =
   (Raise AssertionError, logs [op_exists folder_path] w)) /\
  (forall data,
     fs w !! folder_path = Some (File data) ->
     fs w !! cache_path_of cache_file = None ->
     parse_voc_folder folder_path voc_conf cache_file w =
     (Raise (NotADirectoryError folder_path),
      logs [op_exists folder_path; op_exists (cache_path_of cache_file);
            op_listdir folder_path] w)).
Proof.
  unfold parse_voc_folder, visualization_wrapper, parse_voc_folder_def,
    IO.bind, os_path_exists, os_listdir, IO.assert.
  split.
  - intros Hnone. simpl.
    rewrite bool_decide_eq_false_2 by (rewrite Hnone; intros [? ?]; discriminate).
    reflexivity.
  - intros data Hfile Hmiss. simpl.
    rewrite bool_decide_eq_true_2 by (rewrite Hfile; eauto).
    unfold IO.ret. simpl.
    rewrite bool_decide_eq_false_2 by (rewrite Hmiss; intros [? ?]; discriminate).
    simpl. rewrite Hfile. unfold logs, log. simpl. now rewrite <- !app_assoc.
Qed.

Example parse_voc_folder_plain_file :
  fst (parse_voc_folder "plain" "voc_conf.json" "labels.csv" Fixture.mixed_world) =
  Raise (NotADirectoryError "plain").
Proof. vm_compute. reflexivity. Qed.

Lemma collect_labels_raise folder_path voc_conf w0 e file_names :
  forall before file_name after rss image_data w,
    fs w = fs w0 ->
    List.filter is_annotation file_names = (before ++ file_name :: after)%list ->
    for_each (fun f => fst (parse_voc_file (PosixPath.join folder_path f) voc_conf w0))
             before = Ok rss ->
    fst (parse_voc_file (PosixPath.join folder_path file_name) voc_conf w0) = Raise e ->
    collect_labels folder_path voc_conf file_names image_data w =
    (Raise e,
     snd (parse_voc_file (PosixPath.join folder_path file_name) voc_conf
            (logs (flat_map (fun f => file_ops voc_conf (PosixPath.join folder_path f))
                            before) w))).
Proof.
  induction file_names as [|name rest IH]; simpl;
    intros before file_name after rss image_data w Hfs Hsel Hbefore Hfail.
  - destruct before; discriminate.
  - fold (is_annotation name) in *.
    destruct (is_annotation name); [|now apply IH with (after := after) (rss := rss)].
    destruct before as [|b before]; simpl in Hsel; injection Hsel as -> Hsel.
    + simpl. rewrite logs_nil. unfold IO.bind.
      pose proof (parse_voc_file_same_tree w w0
                    (PosixPath.join folder_path file_name) voc_conf Hfs) as Hsame.
      rewrite Hfail in Hsame.
      destruct (parse_voc_file _ voc_conf w) as [[rows|e'] w1]; simpl in *;
        congruence.
    + simpl in Hbefore.
      destruct (fst (parse_voc_file (PosixPath.join folder_path b) voc_conf w0))
        as [rows|] eqn:Hb; simpl in Hbefore; [|discriminate].
      destruct (for_each _ before) as [rss'|] eqn:Hrest; simpl in Hbefore;
        [|discriminate].
      apply parse_voc_file_ok_inv in Hb as (tags & tree & Hx & Hj & Hrows).
      unfold IO.bind.
      rewrite (parse_voc_file_run w _ voc_conf tags tree) by (rewrite Hfs; assumption).
      rewrite Hrows.
      rewrite (IH before file_name after rss') by (try reflexivity; assumption).
      simpl. f_equal. f_equal.
      unfold logs, log. simpl. f_equal. now rewrite <- !app_assoc.
Qed.

(** X10.  On a cache miss, the first selected file whose extraction
    raises ends the aggregation: the error is that file's, the run stops
    in the world where that extraction stopped, so no later entry is
    looked at, and nothing is written, not even when earlier files
    returned rows. *)
Theorem parse_voc_folder_first_failure
    w folder_path voc_conf cache_file entries before file_name after rss e :
  fs w !! folder_path = Some (Dir entries) ->
  fs w !! cache_path_of cache_file = None ->
  List.filter (fun f => PosixPath.endswith f annotation_suffix) entries =
    (before ++ file_name :: after)%list ->
  for_each (fun f => fst (parse_voc_file (PosixPath.join folder_path f) voc_conf w))
           before = Ok rss ->
  fst (parse_voc_file (PosixPath.join folder_path file_name) voc_conf w) = Raise e ->
  parse_voc_folder folder_path voc_conf cache_file w =
    (Raise e,
     snd (parse_voc_file (PosixPath.join folder_path file_name) voc_conf
            (logs (miss_ops folder_path voc_conf cache_file before) w))) /\
  fs (snd (parse_voc_folder folder_path voc_conf cache_file w)) = fs w.
Proof.
  intros Hdir Hmiss Hsel Hbefore Hfail.
  assert (Hrun :
    parse_voc_folder folder_path voc_conf cache_file w =
    (Raise e,
     snd (parse_voc_file (PosixPath.join folder_path file_name) voc_conf
            (logs (miss_ops folder_path voc_conf cache_file before) w)))).
  { unfold parse_voc_folder, visualization_wrapper, parse_voc_folder_def,
      IO.bind, os_path_exists, os_listdir, IO.assert.
    simpl. rewrite bool_decide_eq_true_2 by (rewrite Hdir; eauto).
    unfold IO.ret. simpl.
    rewrite bool_decide_eq_false_2 by (rewrite Hmiss; intros [? ?]; discriminate).
    simpl. rewrite Hdir.
    rewrite (collect_labels_raise folder_path voc_conf w e entries before
               file_name after rss) by auto.
    f_equal. f_equal.
    unfold logs, log, miss_ops. simpl. f_equal. now rewrite <- !app_assoc. }
  split; [assumption|]. rewrite Hrun. simpl.
  now destruct (parse_voc_file_world
                  (logs (miss_ops folder_path voc_conf cache_file before) w)
                  (PosixPath.join folder_path file_name) voc_conf) as [-> _].
Qed.

Lemma parse_voc_folder_first_failure_witness :
  parse_voc_folder "mix" "voc_conf.json" "labels.csv" Fixture.mixed_world =
    (Raise (ValueError (could_not_find "width" "mix/c.xml")),
     snd (parse_voc_file (PosixPath.join "mix" "c.xml") "voc_conf.json"
            (logs (miss_ops "mix" "voc_conf.json" "labels.csv" ["a.xml"])
                  Fixture.mixed_world))) /\
  fs (snd (parse_voc_folder "mix" "voc_conf.json" "labels.csv" Fixture.mixed_world)) =
    fs Fixture.mixed_world.
Proof.
  apply (parse_voc_folder_first_failure Fixture.mixed_world "mix" "voc_conf.json"
           "labels.csv" ["a.xml"; "c.xml"; "b.xml"] ["a.xml"] "c.xml" ["b.xml"]
           [Sample.cat_rows]); reflexivity.
Defined.

(** The log of that run: [b.xml] is never looked at. *)
Example parse_voc_folder_mix_trace :
  trace (snd (parse_voc_folder "mix" "voc_conf.json" "labels.csv" Fixture.mixed_world)) =
  [op_exists "mix"; op_exists "../Caches/labels.csv"; op_listdir "mix";
   op_exists "mix/a.xml"; op_open "voc_conf.json"; op_parse_xml "mix/a.xml";
   op_exists "mix/c.xml"; op_open "voc_conf.json"; op_parse_xml "mix/c.xml"].
Proof. vm_compute. reflexivity. Qed.

Lemma parse_voc_folder_outcome folder_path voc_conf cache_file w :
  (fs (snd (parse_voc_folder folder_path voc_conf cache_file w)) = fs w /\
   cwd (snd (parse_voc_folder folder_path voc_conf cache_file w)) = cwd w /\
   forall frame,
     fst (parse_voc_folder folder_path voc_conf cache_file w) <> Ok (computed frame))
  \/
  (exists frame,
     fst (parse_voc_folder folder_path voc_conf cache_file w) = Ok (computed frame) /\
     fs w !! cache_path_of cache_file = None /\
     fs (snd (parse_voc_folder folder_path voc_conf cache_file w)) =
       <[cache_path_of cache_file := File (csv_doc frame)]> (fs w) /\
     cwd (snd (parse_voc_folder folder_path voc_conf cache_file w)) = cwd w).
Proof.
  unfold parse_voc_folder, visualization_wrapper, parse_voc_folder_def,
    IO.bind, os_path_exists, os_listdir, IO.assert, pd_read_csv.
  simpl.
  destruct (bool_decide (is_Some (fs w !! folder_path))); simpl;
    [|left; repeat split; discriminate].
  unfold IO.ret. simpl.
  destruct (bool_decide (is_Some (fs w !! cache_path_of cache_file))) eqn:Hcache;
    simpl.
  { left. repeat split.
    destruct (fs w !! cache_path_of cache_file) as [[|]|]; simpl; discriminate. }
  apply bool_decide_eq_false_1 in Hcache.
  assert (Hmiss : fs w !! cache_path_of cache_file = None).
  { destruct (fs w !! cache_path_of cache_file); [|reflexivity].
    exfalso. apply Hcache. eauto. }
  destruct (fs w !! folder_path) as [[entries|]|]; simpl;
    try (left; repeat split; discriminate).
  match goal with
  | |- context [collect_labels ?a ?b ?c ?d ?e] =>
      pose proof (collect_labels_world a b c d e) as [Hfs1 Hcwd1];
      destruct (collect_labels a b c d e) as [[image_data|] w1]
  end; simpl in *; [|left; repeat split; try assumption; discriminate].
  destruct image_data as [|r0 image_data]; simpl.
  { left. repeat split; try assumption; discriminate. }
  destruct (forallb row_coercible (r0 :: image_data)) eqn:Hc.
  - rewrite adjust_frame_ok by assumption. simpl.
    right. eexists. split; [reflexivity|].
    split; [assumption|]. split; [now rewrite Hfs1 | assumption].
  - destruct (adjust_frame_raise (r0 :: image_data) cache_file w1 Hc) as (msg & ->).
    simpl. left. repeat split; try assumption; discriminate.
Qed.

(** X11.  Aggregation never changes the working directory nor any path
    other than that of the cache artifact.  The artifact itself is written
    only by a call that returns a computed table, which happens only when
    none existed, and then it holds that table; every other call, whether
    it returns the cached table or raises, leaves the file tree as it
    was. *)
Theorem parse_voc_folder_writes_only_cache folder_path voc_conf cache_file w :
  cwd (snd (parse_voc_folder folder_path voc_conf cache_file w)) = cwd w /\
  (forall path,
     path <> cache_path_of cache_file ->
     fs (snd (parse_voc_folder folder_path voc_conf cache_file w)) !! path =
     fs w !! path) /\
  (forall frame,
     fst (parse_voc_folder folder_path voc_conf cache_file w) = Ok (computed frame) ->
     fs w !! cache_path_of cache_file = None /\
     fs (snd (parse_voc_folder folder_path voc_conf cache_file w)) =
       <[cache_path_of cache_file := File (csv_doc frame)]> (fs w)) /\
  ((forall frame,
      fst (parse_voc_folder folder_path voc_conf cache_file w) <> Ok (computed frame)) ->
   fs (snd (parse_voc_folder folder_path voc_conf cache_file w)) = fs w).
Proof.
  destruct (parse_voc_folder_outcome folder_path voc_conf cache_file w)
    as [(Hfs & Hcwd & Hno)|(frame & Hres & Hmiss & Hfs & Hcwd)].
  - split; [assumption|]. split; [|split].
    + intros path _. now rewrite Hfs.
    + intros frame Hres. now destruct (Hno frame).
    + intros _. assumption.
  - split; [assumption|]. split; [|split].
    + intros path Hne. rewrite Hfs. now apply lookup_insert_ne.
    + intros frame' Hres'. split; [assumption|]. rewrite Hfs. congruence.
    + intros Hno. now destruct (Hno frame).
Qed.

(** X12.  A call that misses the cache and returns a table leaves behind
    the artifact that the next call with the same arguments returns: that
    call reads what the first one wrote from its table, and looks at
    neither the folder's listing nor any annotation file. *)
Theorem parse_voc_folder_miss_then_hit
    w folder_path voc_conf cache_file node frame w' :
  fs w !! folder_path = Some node ->
  fs w !! cache_path_of cache_file = None ->
  parse_voc_folder folder_path voc_conf cache_file w = (Ok (computed frame), w') ->
  parse_voc_folder folder_path voc_conf cache_file w' =
    (Ok (read_csv (csv_doc frame)), logs (hit_ops folder_path cache_file) w') /\
  fs w' !! cache_path_of cache_file = Some (File (csv_doc frame)).
Proof.
  intros Hdir Hmiss Hrun.
  assert (Hne : folder_path <> cache_path_of cache_file) by congruence.
  split.
  - now apply (parse_voc_folder_second_call w folder_path voc_conf cache_file
                 frame w' node).
  - destruct (parse_voc_folder_outcome folder_path voc_conf cache_file w)
      as [(_ & _ & Hno)|(frame' & Hres & _ & Hfs & _)];
      rewrite Hrun in *; simpl in *.
    + now destruct (Hno frame).
    + injection Hres as ->. rewrite Hfs. apply lookup_insert_eq.
Qed.

Lemma parse_voc_folder_miss_then_hit_witness :
  parse_voc_folder "data" "voc_conf.json" "labels.csv"
    (snd (parse_voc_folder "data" "voc_conf.json" "labels.csv" Sample.world)) =
    (Ok (read_csv (csv_doc (normalized Fixture.data_rows))),
     logs (hit_ops "data" "labels.csv")
          (snd (parse_voc_folder "data" "voc_conf.json" "labels.csv" Sample.world))) /\
  fs (snd (parse_voc_folder "data" "voc_conf.json" "labels.csv" Sample.world))
     !! cache_path_of "labels.csv" =
    Some (File (csv_doc (normalized Fixture.data_rows))).
Proof.
  apply (parse_voc_folder_miss_then_hit Sample.world "data" "voc_conf.json"
           "labels.csv" (Dir ["a.xml"; "notes.txt"; "b.xml"])).
  - reflexivity.
  - reflexivity.
  - vm_compute. reflexivity.
Defined.

(** ** Aggregation, end to end *)

(** X13.  On a cache miss over a folder whose selected files are complete
    documents with numeric geometry and at least one object between them,
    aggregation returns the normalisation of the rows of those documents,
    file after file in the order of the listing and object after object
    in the order of each document; the table has as many rows as the
    documents have objects, and it is what the artifact then holds. *)
Theorem parse_voc_folder_end_to_end
    w folder_path voc_conf cache_file entries tags (docs : string -> Element) :
  fs w !! folder_path = Some (Dir entries) ->
  fs w !! cache_path_of cache_file = None ->
  fs w !! voc_conf = Some (File (json_doc tags)) ->
  (forall f,
     In f (List.filter (fun f => PosixPath.endswith f annotation_suffix) entries) ->
     fs w !! PosixPath.join folder_path f = Some (File (xml_doc (docs f))) /\
     required_fields_present tags (docs f) = true) ->
  flat_map (fun f => map (expected_row tags (docs f)) (object_items tags (docs f)))
           (List.filter (fun f => PosixPath.endswith f annotation_suffix) entries)
    <> [] ->
  forallb row_coercible
    (flat_map (fun f => map (expected_row tags (docs f)) (object_items tags (docs f)))
              (List.filter (fun f => PosixPath.endswith f annotation_suffix) entries))
    = true ->
  fst (parse_voc_folder folder_path voc_conf cache_file w) =
    Ok (computed
          (normalized
             (flat_map (fun f => map (expected_row tags (docs f))
                                     (object_items tags (docs f)))
                (List.filter (fun f => PosixPath.endswith f annotation_suffix)
                             entries)))) /\
  length
    (normalized
       (flat_map (fun f => map (expected_row tags (docs f)) (object_items tags (docs f)))
          (List.filter (fun f => PosixPath.endswith f annotation_suffix) entries))) =
    list_sum (map (fun f => length (object_items tags (docs f)))
                  (List.filter (fun f => PosixPath.endswith f annotation_suffix)
                               entries)) /\
  fs (snd (parse_voc_folder folder_path voc_conf cache_file w))
     !! cache_path_of cache_file =
    Some (File (csv_doc
                  (normalized
                     (flat_map (fun f => map (expected_row tags (docs f))
                                             (object_items tags (docs f)))
                        (List.filter (fun f => PosixPath.endswith f annotation_suffix)
                                     entries))))).
Proof.
  intros Hdir Hmiss Hconf Hdocs Hne Hnum.
  set (selected := List.filter (fun f => PosixPath.endswith f annotation_suffix)
                               entries) in *.
  set (rows := fun f => map (expected_row tags (docs f)) (object_items tags (docs f)))
    in *.
  assert (Hall :
    for_each (fun f => fst (parse_voc_file (PosixPath.join folder_path f) voc_conf w))
             selected = Ok (map rows selected)).
  { apply for_each_ok. apply List.Forall_forall. intros f Hf.
    destruct (Hdocs f Hf) as [Hx Hc].
    rewrite (parse_voc_file_run w _ voc_conf tags (docs f)) by assumption.
    simpl. now apply tree_rows_complete. }
  pose proof (parse_voc_folder_miss w folder_path voc_conf cache_file entries
                (map rows selected) Hdir Hmiss Hall) as Hrun.
  rewrite <- flat_map_concat_map in Hrun. fold selected in Hrun. simpl in Hrun.
  destruct (flat_map rows selected) as [|r0 raw] eqn:Hraw; [congruence|].
  rewrite adjust_frame_ok in Hrun by assumption.
  rewrite Hrun. simpl.
  split; [reflexivity|]. split.
  - rewrite normalized_spec, length_map, <- Hraw, length_flat_map.
    unfold rows. f_equal. apply map_ext. intros f. apply length_map.
  - apply lookup_insert_eq.
Qed.

Lemma parse_voc_folder_end_to_end_witness :
  fst (parse_voc_folder "data" "voc_conf.json" "labels.csv" Sample.world) =
    Ok (computed
          (normalized
             (flat_map (fun f => map (expected_row Sample.voc_tags (Fixture.sample_docs f))
                                     (object_items Sample.voc_tags (Fixture.sample_docs f)))
                (List.filter (fun f => PosixPath.endswith f annotation_suffix)
                             ["a.xml"; "notes.txt"; "b.xml"])))) /\
  length
    (normalized
       (flat_map (fun f => map (expected_row Sample.voc_tags (Fixture.sample_docs f))
                               (object_items Sample.voc_tags (Fixture.sample_docs f)))
          (List.filter (fun f => PosixPath.endswith f annotation_suffix)
                       ["a.xml"; "notes.txt"; "b.xml"]))) =
    list_sum (map (fun f => length (object_items Sample.voc_tags (Fixture.sample_docs f)))
                  (List.filter (fun f => PosixPath.endswith f annotation_suffix)
                               ["a.xml"; "notes.txt"; "b.xml"])) /\
  fs (snd (parse_voc_folder "data" "voc_conf.json" "labels.csv" Sample.world))
     !! cache_path_of "labels.csv" =
    Some (File (csv_doc
                  (normalized
                     (flat_map (fun f => map (expected_row Sample.voc_tags
                                                           (Fixture.sample_docs f))
                                             (object_items Sample.voc_tags
                                                           (Fixture.sample_docs f)))
                        (List.filter (fun f => PosixPath.endswith f annotation_suffix)
                                     ["a.xml"; "notes.txt"; "b.xml"]))))).
Proof.
  apply (parse_voc_folder_end_to_end Sample.world "data" "voc_conf.json" "labels.csv"
           ["a.xml"; "notes.txt"; "b.xml"] Sample.voc_tags Fixture.sample_docs).
  - reflexivity.
  - reflexivity.
  - reflexivity.
  - intros f [<-|[<-|[]]]; split; reflexivity.
  - vm_compute. discriminate.
  - vm_compute. reflexivity.
Defined.

(** ** Which entries are selected *)

Lemma string_length_append a b :
  String.length (a ++ b) = (String.length a + String.length b)%nat.
Proof. induction a as [|c a IH]; simpl; [reflexivity|]. now rewrite IH. Qed.

Lemma substring_whole s : String.substring 0 (String.length s) s = s.
Proof. induction s as [|c s IH]; simpl; [reflexivity|]. now rewrite IH. Qed.

Lemma substring_after a m b :
  String.substring (String.length a) m (a ++ b) = String.substring 0 m b.
Proof. induction a as [|c a IH]; simpl; [reflexivity|]. apply IH. Qed.

Lemma substring_split s :
  forall k, (k <= String.length s)%nat ->
    s = (String.substring 0 k s
         ++ String.substring k (String.length s - k) s)%string.
Proof.
  induction s as [|c s IH]; intros [|k] Hk; simpl in *; try lia.
  - reflexivity.
  - now rewrite substring_whole.
  - change (String c s =
            String c (String.substring 0 k s
                      ++ String.substring k (String.length s - k) s)%string).
    f_equal. apply IH. lia.
Qed.

(** X14.  An entry of the listing is selected exactly when its name is
    some stem, possibly empty, followed by [.xml] in lower case; nothing
    else about the entry is looked at. *)
Theorem annotation_selected file_name :
  PosixPath.endswith file_name annotation_suffix = true <->
  exists stem, file_name = (stem ++ annotation_suffix)%string.
Proof.
  unfold PosixPath.endswith. split.
  - intros H. apply andb_prop in H as [Hlen Heq].
    apply Nat.leb_le in Hlen. apply String.eqb_eq in Heq.
    pose proof (substring_split file_name
                  (String.length file_name - String.length annotation_suffix))
      as Hsplit.
    replace (String.length file_name
             - (String.length file_name - String.length annotation_suffix))%nat
      with (String.length annotation_suffix) in Hsplit by lia.
    rewrite Heq in Hsplit.
    eexists. apply Hsplit. lia.
  - intros [stem ->]. rewrite string_length_append.
    apply andb_true_intro. split; [apply Nat.leb_le; lia|].
    replace (String.length stem + String.length annotation_suffix
             - String.length annotation_suffix)%nat
      with (String.length stem) by lia.
    rewrite substring_after, substring_whole. apply String.eqb_refl.
Qed.

Example annotation_selected_names :
  map (fun f => PosixPath.endswith f annotation_suffix)
      ["a.xml"; ".xml"; "a.XML"; "a.xml.bak"; "xml"; "dir.xml/"] =
  [true; true; false; false; false; false].
Proof. vm_compute. reflexivity. Qed.

(** ** Rows without a class name *)

Lemma first_index_after_none s (names : list Text) :
  (1 <= first_index (Some s) (drop_duplicates (None :: names)))%nat.
Proof.
  unfold drop_duplicates. cbn [drop_duplicates_from].
  case_bool_decide as H; [now apply not_elem_of_nil in H|].
  cbn [first_index]. case_bool_decide; [discriminate|lia].
Qed.

(** X15.  In the table that normalisation returns, the identifier of a
    row is NaN exactly when its name element had no text; such a row still
    takes its turn in the numbering, so that when the first row is one of
    them no row at all carries the identifier 1. *)
Theorem adjust_frame_unnamed_rows frame cache_file w out w' :
  adjust_frame frame cache_file w = (Ok out, w') ->
  (forall r, In r out -> (Object_ID r = None <-> Object_Name (labels r) = None)) /\
  (forall first rest,
     frame = first :: rest -> Object_Name first = None ->
     forall r, In r out -> Object_ID r <> Some 1).
Proof.
  intros Hrun. apply adjust_frame_inv in Hrun as (_ & -> & _). split.
  - intros r Hin. apply in_normalized in Hin as (raw & _ & ->). simpl.
    destruct (Object_Name raw); simpl; split; congruence.
  - intros first rest -> Hfirst r Hin.
    apply in_normalized in Hin as (raw & _ & ->). simpl. rewrite Hfirst.
    destruct (Object_Name raw) as [s|]; simpl; [|discriminate].
    unfold class_id. pose proof (first_index_after_none s (map Object_Name rest)).
    intros [= H']. lia.
Qed.

Lemma adjust_frame_unnamed_rows_witness :
  (forall r,
     In r (normalized
             (mkRow (Some "img0.jpg") None (Some "100") (Some "200")
                    (Some "1") (Some "2") (Some "3") (Some "4")
              :: Sample.cat_rows)) ->
     (Object_ID r = None <-> Object_Name (labels r) = None)) /\
  (forall first rest,
     mkRow (Some "img0.jpg") None (Some "100") (Some "200")
           (Some "1") (Some "2") (Some "3") (Some "4")
     :: Sample.cat_rows = first :: rest ->
     Object_Name first = None ->
     forall r,
       In r (normalized
               (mkRow (Some "img0.jpg") None (Some "100") (Some "200")
                      (Some "1") (Some "2") (Some "3") (Some "4")
                :: Sample.cat_rows)) ->
       Object_ID r <> Some 1).
Proof.
  apply (adjust_frame_unnamed_rows
           (mkRow (Some "img0.jpg") None (Some "100") (Some "200")
                  (Some "1") (Some "2") (Some "3") (Some "4")
            :: Sample.cat_rows)
           "labels.csv" Sample.world _
           (after_adjust
              (mkRow (Some "img0.jpg") None (Some "100") (Some "200")
                     (Some "1") (Some "2") (Some "3") (Some "4")
               :: Sample.cat_rows)
              "labels.csv" Sample.world)).
  vm_compute. reflexivity.
Defined.

(** After a row without a name, the first named class is numbered 2. *)
Example adjust_frame_unnamed_first :
  option_map (map Object_ID)
    (match fst (adjust_frame
                  (mkRow (Some "img0.jpg") None (Some "100") (Some "200")
                         (Some "1") (Some "2") (Some "3") (Some "4")
                   :: Sample.cat_rows)
                  "labels.csv" Sample.world) with
     | Ok out => Some out
     | Raise _ => None
     end) =
  Some [None; Some 2].
Proof. vm_compute. reflexivity. Qed.
